(** * Component manager of the Social Interaction Cloud

    A shallow embedding of [sic_framework/core/component_manager_python2.py]:
    the message classes, [SICComponentManager] and its singleton variant
    [SICSensorManager], followed by the properties of the manager's request
    handling, start path and shutdown.

    Python objects that are mutated or aliased (reply messages, threading
    events, the class-level [started_components] dict) live in an explicit
    store; every method is a computation in a state-and-exception monad, so
    that a raised exception keeps the side effects made before it. *)

From Stdlib Require Import ZArith Ascii.
From stdpp Require Import gmap strings list fin_maps pretty.

Local Open Scope string_scope.
Local Open Scope list_scope.

(** ** Exceptions and outcomes *)

(** An instance of Python's [Exception].  [exn_message] is the value of the
    object's [message] attribute when it has one: every exception object has
    it on Python 2, on Python 3 only those whose class defines it. *)
Record exn := Exn {
  exn_class : string;
  exn_args : string;
  exn_message : option string
}.

Inductive outcome (A : Type) : Type :=
| Ret (a : A)
| Raise (e : exn).
Arguments Ret {A} a.
Arguments Raise {A} e.

Definition KeyError (key : string) : exn := Exn "KeyError" key None.
Definition AttributeError (attr : string) : exn := Exn "AttributeError" attr None.

(** ** Messages *)

Record SICStartComponentRequest := {
  component_name : string;
  log_level : Z;
  conf : option string
}.

Inductive SICRequest :=
| SICStopRequest
| StartComponent (request : SICStartComponentRequest).

Inductive message_class :=
| SICStartedComponentInformation
| SICNotStartedMessage
| SICSuccessMessage
| SICIgnoreRequestMessage.

Inductive value :=
| VStr (s : string)
| VBool (b : bool)
| VExn (e : exn).

(** A message object: its class and its instance dictionary. *)
Record object := Obj {
  obj_class : message_class;
  obj_dict : gmap string value
}.

(** Class attributes: [component_is_singleton = False] on
    [SICStartedComponentInformation]. *)
Definition class_attr (c : message_class) (attr : string) : option value :=
  match c with
  | SICStartedComponentInformation =>
      if decide (attr = "component_is_singleton") then Some (VBool false) else None
  | _ => None
  end.

(** Attribute lookup: the instance dictionary first, then the class. *)
Definition obj_getattr (o : object) (attr : string) : option value :=
  match obj_dict o !! attr with
  | Some v => Some v
  | None => class_attr (obj_class o) attr
  end.

Definition obj_setattr (o : object) (attr : string) (v : value) : object :=
  Obj (obj_class o) (<[attr := v]> (obj_dict o)).

(** ** Component classes and instances *)

(** A component class registered with a manager.  The classes themselves are
    collaborators of the manager; what the manager calls on them is given
    here as data: each call either returns or raises. *)
Record component_class := {
  get_component_name : string;
  get_output_channel : string -> outcome string;
  cc_init : string -> Z -> option string -> outcome unit;
  cc_thread_start : outcome unit;
  cc_ready_in_time : bool;
  COMPONENT_STARTUP_TIMEOUT : Z
}.

(** A running component, as the manager sees it. *)
Record component := {
  comp_class : component_class;
  comp_output_channel : string;
  _stop_event : nat;
  _ready_event : nat
}.

(** The connection to the message bus; [redis_close] is what [close()] does. *)
Record SICRedis := {
  redis_close : outcome unit;
  redis_closed : bool
}.

(** ** Manager instances and the process they live in *)

Inductive manager_class := SICComponentManager | SICSensorManager.

Definition class_name (c : manager_class) : string :=
  match c with
  | SICComponentManager => "SICComponentManager"
  | SICSensorManager => "SICSensorManager"
  end.

(** The attributes set by [SICComponentManager.__init__]. *)
Record manager := {
  mclass : manager_class;
  redis : SICRedis;
  ip : string;
  active_components : list component;
  component_classes : gmap string component_class;
  component_counter : Z;
  stop_event : nat;
  ready_event : nat
}.

Inductive log_level_name := INFO | ERROR.

Record log_record := {
  log_name : string;
  log_severity : log_level_name;
  log_text : string
}.

(** What all manager instances of one process share: the message objects and
    events (by address), the class attribute
    [SICSensorManager.started_components], standard output and the log. *)
Record process := {
  heap : list object;
  events : list bool;
  started_components : gmap string nat;
  stdout : list string;
  log : list log_record
}.

Definition empty_process : process :=
  {| heap := []; events := []; started_components := ∅; stdout := []; log := [] |}.

(** ** The monad of methods *)

Definition M (A : Type) : Type := manager -> process -> outcome A * manager * process.

Definition ret {A} (a : A) : M A := fun self p => (Ret a, self, p).

Definition raise {A} (e : exn) : M A := fun self p => (Raise e, self, p).

Definition bind {A B} (m : M A) (k : A -> M B) : M B :=
  fun self p =>
    match m self p with
    | (Ret a, self', p') => k a self' p'
    | (Raise e, self', p') => (Raise e, self', p')
    end.

(** [try: ... except Exception as e: ...] *)
Definition try_except {A} (body : M A) (handler : exn -> M A) : M A :=
  fun self p =>
    match body self p with
    | (Ret a, self', p') => (Ret a, self', p')
    | (Raise e, self', p') => handler e self' p'
    end.

Notation "'let*' x := m 'in' k" := (bind m (fun x => k))
  (at level 10, x name, m at level 100, k at level 200).
Notation "m ;; k" := (bind m (fun _ => k))
  (at level 100, k at level 200, right associativity).

Definition get_self : M manager := fun self p => (Ret self, self, p).
Definition get_process : M process := fun self p => (Ret p, self, p).
Definition modify_self (f : manager -> manager) : M unit :=
  fun self p => (Ret tt, f self, p).
Definition modify_process (f : process -> process) : M unit :=
  fun self p => (Ret tt, self, f p).

(** A call into a collaborator whose result is already known. *)
Definition call {A} (o : outcome A) : M A :=
  match o with
  | Ret a => ret a
  | Raise e => raise e
  end.

(** [for x in l: body(x)] *)
Fixpoint for_each {A} (l : list A) (body : A -> M unit) : M unit :=
  match l with
  | [] => ret tt
  | x :: rest => body x ;; for_each rest body
  end.

(** *** Record updates *)

Definition set_heap (h : list object) (p : process) : process :=
  {| heap := h; events := events p; started_components := started_components p;
     stdout := stdout p; log := log p |}.
Definition set_events (ev : list bool) (p : process) : process :=
  {| heap := heap p; events := ev; started_components := started_components p;
     stdout := stdout p; log := log p |}.
Definition set_started_components (c : gmap string nat) (p : process) : process :=
  {| heap := heap p; events := events p; started_components := c;
     stdout := stdout p; log := log p |}.
Definition set_stdout (out : list string) (p : process) : process :=
  {| heap := heap p; events := events p; started_components := started_components p;
     stdout := out; log := log p |}.
Definition set_log (l : list log_record) (p : process) : process :=
  {| heap := heap p; events := events p; started_components := started_components p;
     stdout := stdout p; log := l |}.

Definition set_active_components (l : list component) (m : manager) : manager :=
  {| mclass := mclass m; redis := redis m; ip := ip m; active_components := l;
     component_classes := component_classes m; component_counter := component_counter m;
     stop_event := stop_event m; ready_event := ready_event m |}.
Definition set_redis (r : SICRedis) (m : manager) : manager :=
  {| mclass := mclass m; redis := r; ip := ip m;
     active_components := active_components m;
     component_classes := component_classes m; component_counter := component_counter m;
     stop_event := stop_event m; ready_event := ready_event m |}.

(** *** Primitive effects *)

(** [print(s)] *)
Definition print (s : string) : M unit :=
  modify_process (fun p => set_stdout (stdout p ++ [s]) p).

(** [threading.Event()] *)
Definition new_event : M nat :=
  let* p := get_process in
  modify_process (set_events (events p ++ [false])) ;;
  ret (length (events p)).

(** [ev.set()] *)
Definition event_set (ev : nat) : M unit :=
  modify_process (fun p => set_events (<[ev := true]> (events p)) p).

(** [ev.is_set()] *)
Definition event_is_set (ev : nat) : M bool :=
  let* p := get_process in
  ret (default false (events p !! ev)).

(** Creating a message object. *)
Definition new_object (o : object) : M nat :=
  let* p := get_process in
  modify_process (set_heap (heap p ++ [o])) ;;
  ret (length (heap p)).

(** [reply.attr = v] *)
Definition setattr (l : nat) (attr : string) (v : value) : M unit :=
  modify_process (fun p =>
    set_heap (alter (fun o => obj_setattr o attr v) l (heap p)) p).

(** [copy.copy(reply)]: a new object of the same class whose instance
    dictionary has the same entries.  References handed out by [new_object]
    are never dangling, so the second branch is not reached from the
    manager's methods. *)
Definition copy_copy (l : nat) : M nat :=
  let* p := get_process in
  match heap p !! l with
  | Some o => new_object (Obj (obj_class o) (obj_dict o))
  | None => raise (Exn "ReferenceError" "dangling reference" None)
  end.

(** [self.logger.info(text)] and [self.logger.error(text)]; the logger is
    named ["<manager-class>-<ip>"] by [get_manager_logger]. *)
Definition logger_name (self : manager) : string :=
  class_name (mclass self) +:+ "-" +:+ ip self.

Definition logger_emit (sev : log_level_name) (text : string) : M unit :=
  let* self := get_self in
  modify_process (fun p =>
    set_log (log p ++ [{| log_name := logger_name self; log_severity := sev;
                          log_text := text |}]) p).

Definition logger_info := logger_emit INFO.
Definition logger_error := logger_emit ERROR.

(** ** SICComponentManager *)

(** [self.component_classes[name]] *)
Definition lookup_component_class (name : string) : M component_class :=
  let* self := get_self in
  match component_classes self !! name with
  | Some cls => ret cls
  | None => raise (KeyError name)
  end.

(** Modelled from the spec: the component base class, whose constructor
    [component_class(output_channel=..., stop_event=..., ready_event=...,
    log_level=..., conf=...)] runs here, is not among the sources.  Per the
    spec the factory produces the runtime instance from the output channel,
    the stop signal, the ready signal, the log level and the configuration,
    and the instance holds that channel and those two signals; the
    constructor either raises or yields such an instance. *)
Definition construct (cls : component_class) (output_channel : string)
    (stop_ev ready_ev : nat) (lvl : Z) (cf : option string) : M component :=
  call (cc_init cls output_channel lvl cf) ;;
  ret {| comp_class := cls; comp_output_channel := output_channel;
         _stop_event := stop_ev; _ready_event := ready_ev |}.

(** [thread = threading.Thread(target=component._start); thread.start()]
    followed by [component._ready_event.wait(timeout)]: when the wait
    returns, the ready event is set iff the component got ready in time. *)
Definition thread_start (c : component) : M unit :=
  call (cc_thread_start (comp_class c)).

Definition wait_ready (c : component) : M unit :=
  if cc_ready_in_time (comp_class c) then event_set (_ready_event c) else ret tt.

(** The text logged when the ready event was not set;
    [component.get_component_name] is formatted as a bound method. *)
Definition refused_to_start (c : component) : string :=
  "Component <bound method " +:+ get_component_name (comp_class c)
    +:+ ".get_component_name> refused to start within "
    +:+ pretty (COMPONENT_STARTUP_TIMEOUT (comp_class c)) +:+ " seconds!".

Definition started_information (output_channel : string) : object :=
  Obj SICStartedComponentInformation {[ "output_channel" := VStr output_channel ]}.

Definition not_started_message (e : exn) : object :=
  Obj SICNotStartedMessage {[ "message" := VExn e ]}.

(** [SICComponentManager.start_component] *)
Definition SICComponentManager_start_component (request : SICStartComponentRequest) : M nat :=
  let* component_class := lookup_component_class (component_name request) in
  let* self := get_self in
  let* output_channel := call (get_output_channel component_class (ip self)) in
  try_except
    (let* stop_ev := new_event in
     let* ready_ev := new_event in
     let* component := construct component_class output_channel stop_ev ready_ev
                         (log_level request) (conf request) in
     thread_start component ;;
     wait_ready component ;;
     let* is_set := event_is_set (_ready_event component) in
     (if is_set then ret tt else logger_error (refused_to_start component)) ;;
     modify_self (fun m => set_active_components (active_components m ++ [component]) m) ;;
     let* reply := new_object (started_information output_channel) in
     ret reply)
    (fun e => new_object (not_started_message e)).

(** ** SICSensorManager *)

(** [SICSensorManager.start_component]; [self.started_components] resolves to
    the class attribute, which the item assignment updates in place. *)
Definition SICSensorManager_start_component (request : SICStartComponentRequest) : M nat :=
  let* component_class := lookup_component_class (component_name request) in
  let* p := get_process in
  let* reply :=
    match started_components p !! get_component_name component_class with
    | None =>
        logger_info ("Starting new component " +:+ component_name request) ;;
        let* reply := SICComponentManager_start_component request in
        setattr reply "component_is_singleton" (VBool true) ;;
        modify_process (fun p =>
          set_started_components
            (<[get_component_name component_class := reply]> (started_components p)) p) ;;
        ret reply
    | Some reply =>
        logger_info ("Reusing existing component " +:+ get_component_name component_class) ;;
        ret reply
    end in
  copy_copy reply.

(** [self.start_component(request)], dispatched on the class of [self]. *)
Definition start_component (request : SICStartComponentRequest) : M nat :=
  let* self := get_self in
  match mclass self with
  | SICComponentManager => SICComponentManager_start_component request
  | SICSensorManager => SICSensorManager_start_component request
  end.

(** [SICComponentManager._handle_request]; the [channel] argument is not
    used by the method and is left out. *)
Definition _handle_request (request : SICRequest) : M nat :=
  match request with
  | SICStopRequest =>
      let* self := get_self in
      event_set (stop_event self) ;;
      new_object (Obj SICSuccessMessage ∅)
  | StartComponent request =>
      let* self := get_self in
      match component_classes self !! component_name request with
      | Some _ =>
          print (class_name (mclass self) +:+ " handling request " +:+ component_name request) ;;
          start_component request
      | None =>
          print (class_name (mclass self) +:+ " ignored request " +:+ component_name request) ;;
          new_object (Obj SICIgnoreRequestMessage ∅)
      end
  end.

(** ** Shutdown and the serve loop *)

(** [err.message] *)
Definition getattr_message (err : exn) : M string :=
  match exn_message err with
  | Some s => ret s
  | None => raise (AttributeError "message")
  end.

(** [self.redis.close()] *)
Definition close_redis : M unit :=
  let* self := get_self in
  call (redis_close (redis self)) ;;
  modify_self (fun m => set_redis {| redis_close := redis_close (redis m);
                                     redis_closed := true |} m).

(** [SICComponentManager.shutdown] *)
Definition shutdown : M unit :=
  print "Trying to exit manager gracefully..." ;;
  try_except
    (close_redis ;;
     let* self := get_self in
     for_each (active_components self)
       (fun component => event_set (_stop_event component)) ;;
     print "Graceful exit was successful")
    (fun err =>
       let* message := getattr_message err in
       print ("Graceful exit has failed: " +:+ message)).

(** What the bus does with one request while [serve] waits: it calls the
    registered handler; the reply, or the exception, goes to the bus. *)
Definition deliver (request : SICRequest) : M (outcome nat) :=
  fun self p =>
    match _handle_request request self p with
    | (r, self', p') => (Ret r, self', p')
    end.

Fixpoint deliver_all (batch : list SICRequest) : M unit :=
  match batch with
  | [] => ret tt
  | request :: rest => deliver request ;; deliver_all rest
  end.

(** The loop of [serve].  [arrivals] lists, for each bounded wait on the stop
    event, the requests handled during that wait.  The result is [true] when
    the loop was left by [break], [false] when it is still waiting after the
    last listed wait. *)
Fixpoint wait_loop (arrivals : list (list SICRequest)) : M bool :=
  match arrivals with
  | [] => ret false
  | batch :: rest =>
      deliver_all batch ;;
      let* self := get_self in
      let* is_set := event_is_set (stop_event self) in
      if is_set then ret true else wait_loop rest
  end.

(** [SICComponentManager.serve] *)
Definition serve (arrivals : list (list SICRequest)) : M bool :=
  let* stopped := wait_loop arrivals in
  if stopped then
    shutdown ;;
    print "Stopped component manager." ;;
    ret true
  else ret false.

(** [{cls.get_component_name(): cls for cls in component_classes}]: a later
    class replaces an earlier one of the same name. *)
Definition registry_of (classes : list component_class) : gmap string component_class :=
  foldl (fun reg cls => <[get_component_name cls := cls]> reg) ∅ classes.

Definition dquote : string := String "034"%char EmptyString.

(** [SICComponentManager.__init__], for either class of manager.  The bus
    connection and the device address come from collaborators. *)
Definition init (cls : manager_class) (connection : SICRedis) (address : string)
    (classes : list component_class) (p : process) : manager * process :=
  let stop_ev := length (events p) in
  let ready_ev := S (length (events p)) in
  let self :=
    {| mclass := cls; redis := connection; ip := address; active_components := [];
       component_classes := registry_of classes; component_counter := 0;
       stop_event := stop_ev; ready_event := ready_ev |} in
  let setup : M unit :=
    logger_info ("Manager on device " +:+ address +:+ " starting") ;;
    print ("Starting component manager on ip " +:+ dquote +:+ address +:+ dquote
             +:+ " with components:") ;;
    for_each (snd <$> map_to_list (registry_of classes))
      (fun c => print (" - " +:+ get_component_name c)) ;;
    event_set ready_ev in
  match setup self (set_events (events p ++ [false; false]) p) with
  | (_, self', p') => (self', p')
  end.

(** ** Observations used in the statements *)

(** The result, the manager and the process after running a method. *)
Definition result_of {A} (r : outcome A * manager * process) : outcome A := r.1.1.
Definition self_of {A} (r : outcome A * manager * process) : manager := r.1.2.
Definition process_of {A} (r : outcome A * manager * process) : process := r.2.

(** [reply.attr] on the object at address [l]. *)
Definition getattr (p : process) (l : nat) (attr : string) : option value :=
  o ← heap p !! l; obj_getattr o attr.

Definition class_of (p : process) (l : nat) : option message_class :=
  obj_class <$> heap p !! l.

Definition is_set (p : process) (ev : nat) : bool := default false (events p !! ev).

(** [self.started_components], read through a manager instance: an instance
    of [SICSensorManager] has no attribute of that name of its own, so the
    lookup ends at the class attribute, whichever instance it starts from. *)
Definition cache_of (self : manager) (p : process) : gmap string nat :=
  started_components p.

(** The process after the two events of a start attempt were created, and
    the instance built from them. *)
Definition with_events (p : process) : process :=
  set_events ((events p ++ [false]) ++ [false]) p.

Definition new_component (p : process) (cls : component_class) (ch : string) : component :=
  {| comp_class := cls; comp_output_channel := ch;
     _stop_event := length (events p);
     _ready_event := length (events p ++ [false]) |}.

Definition log_entry (self : manager) (sev : log_level_name) (text : string) : log_record :=
  {| log_name := logger_name self; log_severity := sev; log_text := text |}.

(** Every way [SICComponentManager.start_component] can end for a registered
    class: the exception of [get_output_channel] escapes, or exactly one
    message is created and returned. *)
Inductive start_result (self : manager) (p : process) (cls : component_class) :
    outcome nat * manager * process -> Prop :=
| start_escapes e :
    get_output_channel cls (ip self) = Raise e ->
    start_result self p cls (Raise e, self, p)
| start_failed ch e :
    get_output_channel cls (ip self) = Ret ch ->
    start_result self p cls
      (Ret (length (heap p)), self,
       set_heap (heap p ++ [not_started_message e]) (with_events p))
| start_done ch (ev : list bool) (lg : list log_record) :
    get_output_channel cls (ip self) = Ret ch ->
    start_result self p cls
      (Ret (length (heap p)),
       set_active_components (active_components self ++ [new_component p cls ch]) self,
       set_heap (heap p ++ [started_information ch]) (set_log lg (set_events ev p))).

Definition singleton_flag (o : object) : option value :=
  obj_getattr o "component_is_singleton".

Definition mark_singleton (o : object) : object :=
  obj_setattr o "component_is_singleton" (VBool true).

(** What holds of an object stored in the cache: it was marked as a
    singleton, and when it is a [SICStartedComponentInformation] it carries
    an output channel. *)
Definition cached_reply (o : object) : Prop :=
  singleton_flag o = Some (VBool true) /\
  (obj_class o = SICStartedComponentInformation ->
   exists ch, obj_getattr o "output_channel" = Some (VStr ch)).

(** Every cached address holds such an object. *)
Definition cache_ok (p : process) : Prop :=
  forall key l, started_components p !! key = Some l ->
    exists o, heap p !! l = Some o /\ cached_reply o.

(** The reply at [l] is a copy of the cached entry for [key]: another object
    with the same class and attributes, created after it. *)
Definition served_from_cache (p : process) (key : string) (l : nat) : Prop :=
  exists lc o,
    started_components p !! key = Some lc /\
    heap p !! lc = Some o /\
    heap p !! l = Some o /\
    lc < l < length (heap p) /\
    cached_reply o.

(** The process after the lines [_handle_request] and
    [SICSensorManager.start_component] print or log before starting. *)
Definition handling (self : manager) (request : SICStartComponentRequest) (p : process) : process :=
  set_stdout (stdout p ++ [class_name (mclass self) +:+ " handling request "
                             +:+ component_name request]) p.

Definition reusing (self : manager) (key : string) (p : process) : process :=
  set_log (log p ++ [log_entry self INFO ("Reusing existing component " +:+ key)]) p.

Definition starting (self : manager) (request : SICStartComponentRequest) (p : process) : process :=
  set_log (log p ++ [log_entry self INFO ("Starting new component " +:+ component_name request)]) p.

(** The events after the loop of [shutdown] over the components [l]. *)
Definition stop_events (l : list component) (ev : list bool) : list bool :=
  foldl (fun ev c => <[_stop_event c := true]> ev) ev l.

(** The process after a [SICStopRequest] was handled. *)
Definition stop_handled (self : manager) (p : process) : process :=
  set_heap (heap p ++ [Obj SICSuccessMessage ∅])
    (set_events (<[stop_event self := true]> (events p)) p).

Definition trying : string := "Trying to exit manager gracefully...".

(** The stop events of all active components are set. *)
Definition all_stopped (self : manager) (p : process) : Prop :=
  forall c, c ∈ active_components self -> is_set p (_stop_event c) = true.

(** ** Concrete managers for the examples *)

Module Demo.

Definition ok_class (name : string) : component_class :=
  {| get_component_name := name;
     get_output_channel := fun a => Ret (name +:+ ":" +:+ a);
     cc_init := fun _ _ _ => Ret tt;
     cc_thread_start := Ret tt;
     cc_ready_in_time := true;
     COMPONENT_STARTUP_TIMEOUT := 10 |}.


Definition no_camera : exn := Exn "IOError" "camera not found" (Some "camera not found").

(** A component whose constructor raises. *)
Definition broken_class (name : string) : component_class :=
  {| get_component_name := name;
     get_output_channel := fun a => Ret (name +:+ ":" +:+ a);
     cc_init := fun _ _ _ => Raise no_camera;
     cc_thread_start := Ret tt;
     cc_ready_in_time := true;
     COMPONENT_STARTUP_TIMEOUT := 10 |}.

Definition bad_address : exn := Exn "ValueError" "bad address" (Some "bad address").

(** A component class whose [get_output_channel] raises. *)
Definition no_channel_class (name : string) : component_class :=
  {| get_component_name := name;
     get_output_channel := fun _ => Raise bad_address;
     cc_init := fun _ _ _ => Ret tt;
     cc_thread_start := Ret tt;
     cc_ready_in_time := true;
     COMPONENT_STARTUP_TIMEOUT := 10 |}.

Definition good_redis : SICRedis := {| redis_close := Ret tt; redis_closed := false |}.

(** [close()] raises an exception that has a [message] attribute. *)
Definition lost_with_message : exn :=
  Exn "ConnectionError" "connection lost" (Some "connection lost").
Definition failing_redis : SICRedis :=
  {| redis_close := Raise lost_with_message; redis_closed := false |}.

(** [close()] raises an exception without a [message] attribute, as the
    exceptions of Python 3 are. *)
Definition lost : exn := Exn "ConnectionError" "connection lost" None.
Definition failing_redis_py3 : SICRedis :=
  {| redis_close := Raise lost; redis_closed := false |}.

Definition req (name : string) : SICStartComponentRequest :=
  {| component_name := name; log_level := 20; conf := None |}.

Definition address : string := "10.0.0.5".

(** A plain manager and a singleton manager, each alone in its process. *)
Definition plain (classes : list component_class) : manager * process :=
  init SICComponentManager good_redis address classes empty_process.

Definition sensor (classes : list component_class) : manager * process :=
  init SICSensorManager good_redis address classes empty_process.

(** Two singleton managers created one after the other in one process. *)
Definition two_sensors : manager * manager * process :=
  let '(a, p1) := sensor [ok_class "echo"] in
  let '(b, p2) := init SICSensorManager good_redis address [ok_class "echo"] p1 in
  (a, b, p2).

(** A plain manager with one running component and the given bus
    connection. *)
Definition running (connection : SICRedis) : manager * process :=
  let '(m, p) := init SICComponentManager connection address [ok_class "echo"] empty_process in
  let r := _handle_request (StartComponent (req "echo")) m p in
  (self_of r, process_of r).

End Demo.

(** ** Relations between the states around a request *)

(** The attributes of a manager that [__init__] sets once: everything but
    [active_components]. *)
Definition same_manager (self self' : manager) : Prop :=
  mclass self' = mclass self /\
  redis self' = redis self /\
  ip self' = ip self /\
  component_classes self' = component_classes self /\
  component_counter self' = component_counter self /\
  stop_event self' = stop_event self /\
  ready_event self' = ready_event self.

(** From [(self, p)] to [(self', p')] things were only added: the lists grew
    at their end, cached entries stayed, and among the events that existed
    only the manager's own stop event may have changed, from unset to set. *)
Definition evolves (self : manager) (p : process) (self' : manager) (p' : process) : Prop :=
  same_manager self self' /\
  active_components self `prefix_of` active_components self' /\
  heap p `prefix_of` heap p' /\
  started_components p ⊆ started_components p' /\
  stdout p `prefix_of` stdout p' /\
  log p `prefix_of` log p' /\
  length (events p) <= length (events p') /\
  (forall i, i < length (events p) -> i <> stop_event self ->
     events p' !! i = events p !! i) /\
  (is_set p (stop_event self) = true -> is_set p' (stop_event self) = true).

(** At most one component was added, and it owns the two events created
    last; its stop event is unset. *)
Definition launched_at_most_one (self : manager) (p : process)
    (self' : manager) (p' : process) : Prop :=
  active_components self' = active_components self \/
  exists c,
    active_components self' = active_components self ++ [c] /\
    _stop_event c = length (events p) /\
    _ready_event c = S (length (events p)) /\
    length (events p') = S (S (length (events p))) /\
    events p' !! _stop_event c = Some false.

(** What one start request does beyond [evolves]: no existing event changes
    at all, at most one component and two objects are added, and a returned
    address is that of an object created by this request. *)
Definition start_step (self : manager) (p : process)
    (r : outcome nat * manager * process) : Prop :=
  evolves self p (self_of r) (process_of r) /\
  events p `prefix_of` events (process_of r) /\
  launched_at_most_one self p (self_of r) (process_of r) /\
  length (heap (process_of r)) <= length (heap p) + 2 /\
  (forall l, result_of r = Ret l ->
     length (heap p) <= l < length (heap (process_of r))).

(** The events of the manager and of its components are in order: all are
    allocated, the components' stop events are unset, pairwise different and
    different from the manager's stop event. *)
Definition signals_ok (self : manager) (p : process) : Prop :=
  stop_event self < length (events p) /\
  (forall c, c ∈ active_components self ->
     events p !! _stop_event c = Some false /\ _stop_event c <> stop_event self) /\
  NoDup (_stop_event <$> active_components self).

Definition is_stop (request : SICRequest) : bool :=
  match request with
  | SICStopRequest => true
  | StartComponent _ => false
  end.

(** Whether a stop request is among the arrivals of [serve]. *)
Definition stop_requested (arrivals : list (list SICRequest)) : bool :=
  existsb (existsb is_stop) arrivals.

(** A class whose start succeeds at the address [a] for the request. *)
Definition healthy (cls : component_class) (a : string)
    (request : SICStartComponentRequest) : Prop :=
  exists ch,
    get_output_channel cls a = Ret ch /\
    cc_init cls ch (log_level request) (conf request) = Ret tt /\
    cc_thread_start cls = Ret tt.

(** * Properties *)

Ltac run :=
  unfold result_of, self_of, process_of, _handle_request, start_component,
    SICSensorManager_start_component, SICComponentManager_start_component, lookup_component_class,
    construct, thread_start, wait_ready, copy_copy, setattr, new_object,
    new_event, event_set, event_is_set, logger_error, logger_info, logger_emit,
    print, try_except, bind, call, ret, raise, get_self, get_process,
    modify_self, modify_process in *;
  cbn [fst snd] in *.

(** As [run], keeping calls of [SICComponentManager_start_component] folded. *)
Ltac run_outer :=
  unfold result_of, self_of, process_of, _handle_request, start_component,
    SICSensorManager_start_component, lookup_component_class, copy_copy, setattr,
    new_object, event_set, event_is_set, logger_info, logger_emit,
    print, bind, ret, raise, get_self, get_process,
    modify_self, modify_process in *;
  cbn [fst snd] in *.

(** ** Lists used as stores *)

Lemma lookup_snoc {A} (l : list A) (x : A) : (l ++ [x]) !! length l = Some x.
Proof. apply list_lookup_middle. reflexivity. Qed.

Lemma alter_snoc {A} (f : A -> A) (l : list A) (x : A) :
  alter f (length l) (l ++ [x]) = l ++ [f x].
Proof.
  replace (length l) with (length l + 0) by lia.
  rewrite alter_app_r. reflexivity.
Qed.

Lemma ready_event_fresh (p : process) :
  ((events p ++ [false]) ++ [false]) !! length (events p ++ [false]) = Some false.
Proof. apply lookup_snoc. Qed.

Lemma getattr_output_channel ch :
  obj_getattr (started_information ch) "output_channel" = Some (VStr ch).
Proof.
  unfold obj_getattr, started_information. cbn.
  rewrite lookup_singleton_eq. reflexivity.
Qed.

Lemma singleton_flag_mark o : singleton_flag (mark_singleton o) = Some (VBool true).
Proof.
  unfold singleton_flag, mark_singleton, obj_getattr, obj_setattr. cbn.
  rewrite lookup_insert_eq. reflexivity.
Qed.

(** ** The start path of [SICComponentManager] *)

Section StartPath.

Variables (self : manager) (p : process) (request : SICStartComponentRequest).
Variable cls : component_class.
Hypothesis registered : component_classes self !! component_name request = Some cls.

Lemma base_start_channel_raises e :
  get_output_channel cls (ip self) = Raise e ->
  SICComponentManager_start_component request self p = (Raise e, self, p).
Proof.
  intros Hch. run. rewrite registered. cbn. rewrite Hch. reflexivity.
Qed.

Lemma base_start_init_raises ch e :
  get_output_channel cls (ip self) = Ret ch ->
  cc_init cls ch (log_level request) (conf request) = Raise e ->
  SICComponentManager_start_component request self p =
    (Ret (length (heap p)), self,
     set_heap (heap p ++ [not_started_message e]) (with_events p)).
Proof.
  intros Hch Hinit. run. rewrite registered. cbn. rewrite Hch. cbn.
  rewrite Hinit. reflexivity.
Qed.

Lemma base_start_launch_raises ch e :
  get_output_channel cls (ip self) = Ret ch ->
  cc_init cls ch (log_level request) (conf request) = Ret tt ->
  cc_thread_start cls = Raise e ->
  SICComponentManager_start_component request self p =
    (Ret (length (heap p)), self,
     set_heap (heap p ++ [not_started_message e]) (with_events p)).
Proof.
  intros Hch Hinit Hstart. run. rewrite registered. cbn. rewrite Hch. cbn.
  rewrite Hinit. cbn. rewrite Hstart. reflexivity.
Qed.

Lemma base_start_ready ch :
  get_output_channel cls (ip self) = Ret ch ->
  cc_init cls ch (log_level request) (conf request) = Ret tt ->
  cc_thread_start cls = Ret tt ->
  cc_ready_in_time cls = true ->
  SICComponentManager_start_component request self p =
    (Ret (length (heap p)),
     set_active_components (active_components self ++ [new_component p cls ch]) self,
     set_heap (heap p ++ [started_information ch])
       (set_log (log p)
          (set_events (<[length (events p ++ [false]) := true]>
                         ((events p ++ [false]) ++ [false])) p))).
Proof.
  intros Hch Hinit Hstart Hready. run. rewrite registered. cbn. rewrite Hch. cbn.
  rewrite Hinit. cbn. rewrite Hstart. cbn. rewrite Hready. cbn.
  rewrite list_lookup_insert_eq by (rewrite !length_app; cbn; lia).
  reflexivity.
Qed.

Lemma base_start_not_ready ch :
  get_output_channel cls (ip self) = Ret ch ->
  cc_init cls ch (log_level request) (conf request) = Ret tt ->
  cc_thread_start cls = Ret tt ->
  cc_ready_in_time cls = false ->
  SICComponentManager_start_component request self p =
    (Ret (length (heap p)),
     set_active_components (active_components self ++ [new_component p cls ch]) self,
     set_heap (heap p ++ [started_information ch])
       (set_log (log p ++ [log_entry self ERROR (refused_to_start (new_component p cls ch))])
          (with_events p))).
Proof.
  intros Hch Hinit Hstart Hready. run. rewrite registered. cbn. rewrite Hch. cbn.
  rewrite Hinit. cbn. rewrite Hstart. cbn. rewrite Hready. cbn.
  rewrite ready_event_fresh. reflexivity.
Qed.

Lemma base_start_cases :
  start_result self p cls (SICComponentManager_start_component request self p).
Proof.
  destruct (get_output_channel cls (ip self)) as [ch|e] eqn:Hch.
  - destruct (cc_init cls ch (log_level request) (conf request)) as [[]|e] eqn:Hinit.
    + destruct (cc_thread_start cls) as [[]|e] eqn:Hstart.
      * destruct (cc_ready_in_time cls) eqn:Hready.
        -- erewrite base_start_ready by eassumption.
           apply (start_done self p cls ch); assumption.
        -- erewrite base_start_not_ready by eassumption.
           apply (start_done self p cls ch); assumption.
      * erewrite base_start_launch_raises by eassumption.
        apply (start_failed self p cls ch); assumption.
    + erewrite base_start_init_raises by eassumption.
      apply (start_failed self p cls ch); assumption.
  - erewrite base_start_channel_raises by eassumption.
    apply start_escapes; assumption.
Qed.

End StartPath.

(** What a finished start, whatever its outcome, leaves alone. *)
Lemma start_result_frame self p cls r :
  start_result self p cls r ->
  started_components (process_of r) = started_components p /\
  stdout (process_of r) = stdout p /\
  mclass (self_of r) = mclass self /\
  ip (self_of r) = ip self /\
  component_classes (self_of r) = component_classes self /\
  stop_event (self_of r) = stop_event self /\
  redis (self_of r) = redis self.
Proof. intros []; repeat split. Qed.

(** ** Dispatch in [_handle_request] *)


Lemma handle_start_plain self p request cls :
  mclass self = SICComponentManager ->
  component_classes self !! component_name request = Some cls ->
  _handle_request (StartComponent request) self p =
    SICComponentManager_start_component request self (handling self request p).
Proof.
  intros Hc Hreg. unfold _handle_request, start_component, bind, get_self, print,
    modify_process, handling. rewrite Hreg. cbn. rewrite Hc. reflexivity.
Qed.

Lemma handle_start_sensor self p request cls :
  mclass self = SICSensorManager ->
  component_classes self !! component_name request = Some cls ->
  _handle_request (StartComponent request) self p =
    SICSensorManager_start_component request self (handling self request p).
Proof.
  intros Hc Hreg. unfold _handle_request, start_component, bind, get_self, print,
    modify_process, handling. rewrite Hreg. cbn. rewrite Hc. reflexivity.
Qed.

Lemma handle_unknown self p request :
  component_classes self !! component_name request = None ->
  _handle_request (StartComponent request) self p =
    (Ret (length (heap p)), self,
     set_heap (heap p ++ [Obj SICIgnoreRequestMessage ∅])
       (set_stdout (stdout p ++ [class_name (mclass self) +:+ " ignored request "
                                   +:+ component_name request]) p)).
Proof. intros Hreg. run. rewrite Hreg. reflexivity. Qed.

Lemma handle_stop self p :
  _handle_request SICStopRequest self p =
    (Ret (length (heap p)), self,
     set_heap (heap p ++ [Obj SICSuccessMessage ∅])
       (set_events (<[stop_event self := true]> (events p)) p)).
Proof. reflexivity. Qed.

(** ** The plain start path: C4, C5, C7 *)



(** C5: when the constructor of the component class, or the launch of its
    thread, raises, [start_component] returns a [SICNotStartedMessage] holding
    the raised exception and leaves [active_components] as it was. *)
Theorem C5_factory_failure_gives_not_started
    (self : manager) (p : process) (request : SICStartComponentRequest)
    (cls : component_class) (ch : string) (e : exn) :
  component_classes self !! component_name request = Some cls ->
  get_output_channel cls (ip self) = Ret ch ->
  cc_init cls ch (log_level request) (conf request) = Raise e \/
  (cc_init cls ch (log_level request) (conf request) = Ret tt /\
   cc_thread_start cls = Raise e) ->
  let r := SICComponentManager_start_component request self p in
  (exists l, result_of r = Ret l /\
     class_of (process_of r) l = Some SICNotStartedMessage /\
     getattr (process_of r) l "message" = Some (VExn e)) /\
  active_components (self_of r) = active_components self /\
  length (active_components (self_of r)) = length (active_components self).
Proof.
  intros Hreg Hch Hfail r. subst r.
  assert (SICComponentManager_start_component request self p =
            (Ret (length (heap p)), self,
             set_heap (heap p ++ [not_started_message e]) (with_events p))) as ->.
  { destruct Hfail as [Hinit|[Hinit Hstart]].
    - eapply base_start_init_raises; eassumption.
    - eapply base_start_launch_raises; eassumption. }
  unfold result_of, process_of, self_of, class_of, getattr. cbn.
  split; [|split; reflexivity].
  exists (length (heap p)). rewrite lookup_snoc. cbn.
  split; [reflexivity|]. split; [reflexivity|].
  unfold obj_getattr, not_started_message. cbn.
  rewrite lookup_singleton_eq. reflexivity.
Qed.

Lemma C5_witness :
  let m := (Demo.plain [Demo.broken_class "camera"]).1 in
  let p := (Demo.plain [Demo.broken_class "camera"]).2 in
  let r := SICComponentManager_start_component (Demo.req "camera") m p in
  (exists l, result_of r = Ret l /\
     class_of (process_of r) l = Some SICNotStartedMessage /\
     getattr (process_of r) l "message" = Some (VExn Demo.no_camera)) /\
  active_components (self_of r) = active_components m /\
  length (active_components (self_of r)) = length (active_components m).
Proof.
  apply (C5_factory_failure_gives_not_started
           (Demo.plain [Demo.broken_class "camera"]).1
           (Demo.plain [Demo.broken_class "camera"]).2
           (Demo.req "camera") (Demo.broken_class "camera") "camera:10.0.0.5"
           Demo.no_camera).
  - vm_compute; reflexivity.
  - vm_compute; reflexivity.
  - left. reflexivity.
Defined.




(** ** The start path of [SICSensorManager] *)



(** A cached class is answered with a copy of the cached object; nothing
    else changes but the log. *)
Lemma sensor_start_cached self p request cls lc o :
  component_classes self !! component_name request = Some cls ->
  started_components p !! get_component_name cls = Some lc ->
  heap p !! lc = Some o ->
  SICSensorManager_start_component request self p =
    (Ret (length (heap p)), self,
     set_heap (heap p ++ [o]) (reusing self (get_component_name cls) p)).
Proof.
  intros Hreg Hhit Hobj. run_outer. rewrite Hreg. cbn. rewrite Hhit. cbn.
  rewrite Hobj. destruct o. reflexivity.
Qed.

(** A class that is not cached yet: either the exception of
    [get_output_channel] escapes, or the reply of the plain start path is
    marked, stored, and copied. *)
Lemma sensor_start_fresh self p request cls :
  component_classes self !! component_name request = Some cls ->
  started_components p !! get_component_name cls = None ->
  let r := SICComponentManager_start_component request self (starting self request p) in
  (exists e, get_output_channel cls (ip self) = Raise e /\
     SICSensorManager_start_component request self p = (Raise e, self, starting self request p)) \/
  (exists o, result_of r = Ret (length (heap p)) /\
     heap (process_of r) = heap p ++ [o] /\
     SICSensorManager_start_component request self p =
       (Ret (S (length (heap p))), self_of r,
        set_heap (heap p ++ [mark_singleton o; mark_singleton o])
          (set_started_components
             (<[get_component_name cls := length (heap p)]> (started_components p))
             (process_of r)))).
Proof.
  intros Hreg Hmiss r.
  pose proof (base_start_cases self (starting self request p) request cls Hreg) as Hcase.
  pose proof (start_result_frame _ _ _ _ Hcase) as (Hcache & _).
  assert (Hsensor : SICSensorManager_start_component request self p =
    match r with
    | (Ret l, self1, p1) =>
        copy_copy l self1
          (set_started_components (<[get_component_name cls := l]> (started_components p1))
             (set_heap (alter (fun o => obj_setattr o "component_is_singleton" (VBool true))
                          l (heap p1)) p1))
    | (Raise e, self1, p1) => (Raise e, self1, p1)
    end).
  { subst r. run_outer. unfold starting, log_entry.
    rewrite Hreg. cbn. rewrite Hmiss. cbn.
    destruct (SICComponentManager_start_component request self _)
      as [[[l|e] self1] p1]; reflexivity. }
  rewrite Hsensor. clear Hsensor. fold r in Hcase, Hcache.
  destruct Hcase as [e He|ch e Hch|ch ev lg Hch].
  - left. exists e. split; [assumption|reflexivity].
  - right. exists (not_started_message e).
    split; [reflexivity|]. split; [reflexivity|].
    unfold copy_copy, bind, get_process, new_object, modify_process, ret, self_of,
      process_of. cbn.
    rewrite alter_snoc, lookup_snoc. cbn. rewrite <- app_assoc.
    unfold set_heap, set_started_components, mark_singleton. cbn.
    rewrite length_app, Nat.add_1_r. reflexivity.
  - right. exists (started_information ch).
    split; [reflexivity|]. split; [reflexivity|].
    unfold copy_copy, bind, get_process, new_object, modify_process, ret, self_of,
      process_of. cbn.
    rewrite alter_snoc, lookup_snoc. cbn. rewrite <- app_assoc.
    unfold set_heap, set_started_components, mark_singleton. cbn.
    rewrite length_app, Nat.add_1_r. reflexivity.
Qed.

Lemma lookup_snoc2 {A} (l : list A) (x y : A) : (l ++ [x; y]) !! S (length l) = Some y.
Proof.
  replace (l ++ [x; y]) with ((l ++ [x]) ++ [y]) by (rewrite <- app_assoc; reflexivity).
  replace (S (length l)) with (length (l ++ [x])) by (rewrite length_app; cbn; lia).
  apply lookup_snoc.
Qed.

Lemma cached_reply_mark o :
  (obj_class o = SICStartedComponentInformation ->
   exists ch, obj_getattr o "output_channel" = Some (VStr ch)) ->
  cached_reply (mark_singleton o).
Proof.
  intros Hch. split; [apply singleton_flag_mark|].
  intros Hcls. destruct (Hch Hcls) as [ch Hattr]. exists ch.
  unfold mark_singleton, obj_getattr, obj_setattr in *. cbn in *.
  rewrite lookup_insert_ne by discriminate. exact Hattr.
Qed.

(** Whatever a start on the singleton manager returns is a copy of the entry
    now cached for the class; the cache stays well formed and the objects
    that existed before are untouched. *)
Lemma sensor_start_post self p request cls l :
  cache_ok p ->
  component_classes self !! component_name request = Some cls ->
  let r := SICSensorManager_start_component request self p in
  result_of r = Ret l ->
  served_from_cache (process_of r) (get_component_name cls) l /\
  cache_ok (process_of r) /\
  (forall l0 o, heap p !! l0 = Some o -> heap (process_of r) !! l0 = Some o) /\
  mclass (self_of r) = mclass self /\
  component_classes (self_of r) = component_classes self.
Proof.
  intros Hok Hreg r Hret. subst r.
  destruct (started_components p !! get_component_name cls) as [lc|] eqn:Hcache.
  - destruct (Hok _ _ Hcache) as (o & Hobj & Ho).
    rewrite (sensor_start_cached self p request cls lc o Hreg Hcache Hobj) in *.
    unfold result_of, process_of, self_of in *. cbn in *. injection Hret as <-.
    pose proof (lookup_lt_Some _ _ _ Hobj) as Hlt.
    split; [|split; [|split; [|split]]]; try reflexivity.
    + exists lc, o. cbn. rewrite lookup_snoc, length_app. cbn.
      split; [assumption|]. split; [apply lookup_app_l_Some; assumption|].
      split; [reflexivity|]. split; [lia|assumption].
    + intros key l Hkey. cbn in Hkey. destruct (Hok _ _ Hkey) as (o' & Hobj' & Ho').
      exists o'. cbn. split; [apply lookup_app_l_Some; assumption|assumption].
    + intros l0 o' Hl0. apply lookup_app_l_Some. assumption.
  - pose proof (base_start_cases self (starting self request p) request cls Hreg) as Hcase.
    pose proof (start_result_frame _ _ _ _ Hcase) as (_ & _ & Hmc & _ & Hcc & _).
    destruct (sensor_start_fresh self p request cls Hreg Hcache)
      as [(e & _ & Heq)|(o & Hr & Hheap & Heq)]; rewrite Heq in *; clear Heq.
    { unfold result_of in Hret. cbn in Hret. discriminate. }
    assert (Ho : cached_reply (mark_singleton o)).
    { apply cached_reply_mark. intros Hcls.
      destruct Hcase as [e He|ch e Hch|ch ev lg Hch];
        unfold process_of in Hheap; cbn in Hheap;
        try (apply app_inv_head in Hheap; injection Hheap as <-).
      - unfold result_of in Hr. cbn in Hr. discriminate.
      - discriminate.
      - exists ch. apply getattr_output_channel. }
    unfold result_of, process_of, self_of in *. cbn in *. injection Hret as <-.
    split; [|split; [|split; [|split]]]; try assumption.
    + exists (length (heap p)), (mark_singleton o). cbn.
      rewrite lookup_insert_eq, lookup_snoc2, length_app. cbn.
      split; [reflexivity|]. split; [apply list_lookup_middle; reflexivity|].
      split; [reflexivity|]. split; [lia|assumption].
    + intros key l Hkey. cbn in Hkey. rewrite lookup_insert in Hkey.
      destruct (decide (get_component_name cls = key)) as [_|_].
      * injection Hkey as <-. exists (mark_singleton o). cbn.
        split; [apply list_lookup_middle; reflexivity|assumption].
      * destruct (Hok _ _ Hkey) as (o' & Hobj' & Ho').
        exists o'. cbn. split; [apply lookup_app_l_Some; assumption|assumption].
    + intros l0 o' Hl0. apply lookup_app_l_Some. assumption.
Qed.

Lemma cache_ok_handling self request p : cache_ok p -> cache_ok (handling self request p).
Proof. intros Hok. exact Hok. Qed.

(** A start request for a class whose entry was just served is answered,
    by any singleton manager that has a class of that name registered, with
    one more copy of the same entry; nothing is launched. *)
Lemma sensor_reuse b p request cls l1 :
  component_classes b !! component_name request = Some cls ->
  served_from_cache p (get_component_name cls) l1 ->
  let r := SICSensorManager_start_component request b p in
  exists l2 lc o,
    result_of r = Ret l2 /\
    self_of r = b /\
    events (process_of r) = events p /\
    started_components (process_of r) = started_components p /\
    started_components p !! get_component_name cls = Some lc /\
    l1 <> l2 /\ lc <> l1 /\ lc <> l2 /\
    heap (process_of r) !! l1 = Some o /\
    heap (process_of r) !! l2 = Some o /\
    heap (process_of r) !! lc = Some o /\
    cached_reply o.
Proof.
  intros Hreg (lc & o & Hcache & Hlc & Hl1 & Hlt & Ho) r. subst r.
  rewrite (sensor_start_cached b p request cls lc o Hreg Hcache Hlc).
  exists (length (heap p)), lc, o. unfold result_of, self_of, process_of. cbn.
  rewrite lookup_snoc, !lookup_app_l_Some with (x := o) by assumption.
  split; [reflexivity|]. split; [reflexivity|]. split; [reflexivity|].
  split; [reflexivity|]. split; [assumption|]. split; [lia|].
  split; [lia|]. split; [lia|]. split; [reflexivity|]. split; [reflexivity|].
  split; [reflexivity|assumption].
Qed.



(** [cache_ok] holds in a process without cached entries and is kept by
    [__init__] and by every handled request, for both classes of manager. *)
Lemma cache_ok_empty p : started_components p = ∅ -> cache_ok p.
Proof. intros Hempty key l Hkey. rewrite Hempty, lookup_empty in Hkey. discriminate. Qed.

Lemma cache_ok_extend p q ext :
  started_components q = started_components p ->
  heap q = heap p ++ ext ->
  cache_ok p -> cache_ok q.
Proof.
  intros Hcache Hheap Hok key l Hkey. rewrite Hcache in Hkey.
  destruct (Hok _ _ Hkey) as (o & Hobj & Ho). exists o.
  rewrite Hheap. split; [apply lookup_app_l_Some; assumption|assumption].
Qed.

Lemma for_each_print {A} (text : A -> string) (l : list A) self p :
  for_each l (fun x => print (text x)) self p =
    (Ret tt, self, set_stdout (stdout p ++ (text <$> l)) p).
Proof.
  revert p. induction l as [|x l IH]; intros p.
  - cbn. unfold ret, set_stdout. rewrite app_nil_r. destruct p; reflexivity.
  - cbn. unfold bind, print, modify_process at 1. cbn. rewrite IH.
    unfold set_stdout. cbn. rewrite <- app_assoc. reflexivity.
Qed.

Lemma init_frame cls connection address classes p :
  heap (init cls connection address classes p).2 = heap p /\
  started_components (init cls connection address classes p).2 = started_components p.
Proof.
  unfold init. unfold bind at 1 2 3. unfold logger_info, logger_emit, print at 1.
  unfold bind, get_self, modify_process. cbn.
  rewrite for_each_print. cbn. split; reflexivity.
Qed.

Lemma cache_ok_init cls connection address classes p :
  cache_ok p -> cache_ok (init cls connection address classes p).2.
Proof.
  destruct (init_frame cls connection address classes p) as [Hheap Hcache].
  apply (cache_ok_extend p _ []); [assumption|rewrite app_nil_r; assumption].
Qed.

Lemma sensor_start_cache_ok self p request cls :
  cache_ok p ->
  component_classes self !! component_name request = Some cls ->
  cache_ok (process_of (SICSensorManager_start_component request self p)).
Proof.
  intros Hok Hreg.
  destruct (result_of (SICSensorManager_start_component request self p)) as [l|e] eqn:Hres.
  - apply (sensor_start_post self p request cls l Hok Hreg Hres).
  - destruct (started_components p !! get_component_name cls) as [lc|] eqn:Hcache.
    + destruct (Hok _ _ Hcache) as (o & Hobj & _).
      rewrite (sensor_start_cached self p request cls lc o Hreg Hcache Hobj) in Hres.
      discriminate.
    + destruct (sensor_start_fresh self p request cls Hreg Hcache)
        as [(e' & _ & Heq)|(o & _ & _ & Heq)]; rewrite Heq in *.
      * exact Hok.
      * discriminate.
Qed.

Lemma handle_request_cache_ok self p request :
  cache_ok p -> cache_ok (process_of (_handle_request request self p)).
Proof.
  intros Hok. destruct request as [|request].
  - rewrite handle_stop. apply (cache_ok_extend p _ [Obj SICSuccessMessage ∅]);
      [reflexivity|reflexivity|assumption].
  - destruct (component_classes self !! component_name request) as [cls|] eqn:Hreg.
    + destruct (mclass self) eqn:Hclass.
      * rewrite (handle_start_plain self p request cls Hclass Hreg).
        destruct (base_start_cases self (handling self request p) request cls Hreg).
        -- exact Hok.
        -- apply (cache_ok_extend p _ [not_started_message e]);
             [reflexivity|reflexivity|assumption].
        -- apply (cache_ok_extend p _ [started_information ch]);
             [reflexivity|reflexivity|assumption].
      * rewrite (handle_start_sensor self p request cls Hclass Hreg).
        apply (sensor_start_cache_ok _ _ _ cls); [exact Hok|assumption].
    + rewrite (handle_unknown self p request Hreg).
      apply (cache_ok_extend p _ [Obj SICIgnoreRequestMessage ∅]);
        [reflexivity|reflexivity|assumption].
Qed.


(** ** The cache is shared: C2 *)

(** C2, as stated, fails: of two singleton managers created in one process,
    the first handles a start request for "echo", and the cache read through
    the second, which handled nothing, has changed. *)
Lemma C2_counterexample :
  let a := Demo.two_sensors.1.1 in
  let b := Demo.two_sensors.1.2 in
  let p := Demo.two_sensors.2 in
  let r := _handle_request (StartComponent (Demo.req "echo")) a p in
  mclass a = SICSensorManager /\ mclass b = SICSensorManager /\ a <> b /\
  cache_of b p !! "echo" = None /\
  cache_of b (process_of r) !! "echo" = Some 0 /\
  cache_of b (process_of r) <> cache_of b p.
Proof.
  cbv zeta.
  split; [reflexivity|]. split; [reflexivity|].
  split; [intros H; apply (f_equal stop_event) in H; vm_compute in H; discriminate|].
  split; [vm_compute; reflexivity|]. split; [vm_compute; reflexivity|].
  intros H. apply (f_equal (fun c => c !! "echo")) in H. vm_compute in H. discriminate.
Qed.

(** C2, amended: [started_components] is one dict for all singleton managers
    of the process.  After one singleton manager answered a start request
    for a class name, a start request that another singleton manager handles
    for a registered class of that name launches nothing: the manager and
    the events are as before, and the reply is a copy of the entry the first
    manager's request was served from.  The plain manager never changes the
    cache. *)
Theorem C2_cache_is_shared_by_all_singleton_managers
    (a b : manager) (p p' : process) (request1 request2 : SICStartComponentRequest)
    (cls1 cls2 : component_class) (l1 : nat) :
  mclass a = SICSensorManager ->
  mclass b = SICSensorManager ->
  cache_ok p ->
  component_classes a !! component_name request1 = Some cls1 ->
  component_classes b !! component_name request2 = Some cls2 ->
  get_component_name cls1 = get_component_name cls2 ->
  let r1 := _handle_request (StartComponent request1) a p in
  let r2 := _handle_request (StartComponent request2) b (process_of r1) in
  result_of r1 = Ret l1 ->
  (exists l2 lc o,
     result_of r2 = Ret l2 /\
     self_of r2 = b /\
     events (process_of r2) = events (process_of r1) /\
     cache_of a (process_of r1) !! get_component_name cls1 = Some lc /\
     cache_of b (process_of r1) !! get_component_name cls1 = Some lc /\
     cache_of b (process_of r2) = cache_of a (process_of r1) /\
     heap (process_of r2) !! lc = Some o /\
     heap (process_of r2) !! l1 = Some o /\
     heap (process_of r2) !! l2 = Some o) /\
  (forall plain request,
     mclass plain = SICComponentManager ->
     started_components (process_of (_handle_request request plain p'))
       = started_components p').
Proof.
  intros Ha Hb Hok Hreg1 Hreg2 Hname r1 r2 Hret. subst r2 r1. split.
  - rewrite (handle_start_sensor a p request1 cls1 Ha Hreg1) in *.
    destruct (sensor_start_post a (handling a request1 p) request1 cls1 l1
                (cache_ok_handling _ _ _ Hok) Hreg1 Hret) as (Hserved & _).
    set (p1 := process_of (SICSensorManager_start_component request1 a _)) in *.
    rewrite (handle_start_sensor b p1 request2 cls2 Hb Hreg2).
    rewrite Hname in Hserved |- *.
    destruct (sensor_reuse b (handling b request2 p1) request2 cls2 l1 Hreg2 Hserved)
      as (l2 & lc & o & Hret2 & Hself & Hev & Hsame & Hcache & _ & _ & _
          & Ho1 & Ho2 & Hoc & _).
    exists l2, lc, o. unfold cache_of. rewrite Hsame.
    repeat (split; [assumption || reflexivity|]). assumption.
  - intros plain request Hplain. destruct request as [|request].
    + reflexivity.
    + destruct (component_classes plain !! component_name request) as [cls|] eqn:Hreg.
      * rewrite (handle_start_plain plain p' request cls Hplain Hreg).
        apply (start_result_frame plain (handling plain request p') cls).
        apply base_start_cases. assumption.
      * rewrite (handle_unknown plain p' request Hreg). reflexivity.
Qed.

Lemma C2_witness :
  let a := Demo.two_sensors.1.1 in
  let b := Demo.two_sensors.1.2 in
  let p := Demo.two_sensors.2 in
  let r1 := _handle_request (StartComponent (Demo.req "echo")) a p in
  let r2 := _handle_request (StartComponent (Demo.req "echo")) b (process_of r1) in
  (exists l2 lc o,
     result_of r2 = Ret l2 /\
     self_of r2 = b /\
     events (process_of r2) = events (process_of r1) /\
     cache_of a (process_of r1) !! "echo" = Some lc /\
     cache_of b (process_of r1) !! "echo" = Some lc /\
     cache_of b (process_of r2) = cache_of a (process_of r1) /\
     heap (process_of r2) !! lc = Some o /\
     heap (process_of r2) !! 1 = Some o /\
     heap (process_of r2) !! l2 = Some o) /\
  (forall plain request,
     mclass plain = SICComponentManager ->
     started_components (process_of (_handle_request request plain empty_process))
       = started_components empty_process).
Proof.
  apply (C2_cache_is_shared_by_all_singleton_managers
           Demo.two_sensors.1.1 Demo.two_sensors.1.2 Demo.two_sensors.2 empty_process
           (Demo.req "echo") (Demo.req "echo")
           (Demo.ok_class "echo") (Demo.ok_class "echo") 1).
  - reflexivity.
  - reflexivity.
  - apply cache_ok_empty. reflexivity.
  - vm_compute; reflexivity.
  - vm_compute; reflexivity.
  - reflexivity.
  - vm_compute; reflexivity.
Defined.

(** ** Failed starts on the singleton manager: C3 *)

Lemma not_started_marked e :
  obj_class (mark_singleton (not_started_message e)) = SICNotStartedMessage /\
  obj_getattr (mark_singleton (not_started_message e)) "message" = Some (VExn e).
Proof.
  split; [reflexivity|].
  unfold obj_getattr, mark_singleton, obj_setattr, not_started_message. cbn.
  rewrite lookup_insert_ne by discriminate. rewrite lookup_singleton_eq. reflexivity.
Qed.

(** The singleton manager's start for a class that is not cached and whose
    constructor raises. *)
Lemma sensor_start_init_raises self p request cls ch e :
  component_classes self !! component_name request = Some cls ->
  started_components p !! get_component_name cls = None ->
  get_output_channel cls (ip self) = Ret ch ->
  cc_init cls ch (log_level request) (conf request) = Raise e ->
  SICSensorManager_start_component request self p =
    (Ret (S (length (heap p))), self,
     set_heap (heap p ++ [mark_singleton (not_started_message e);
                          mark_singleton (not_started_message e)])
       (set_started_components
          (<[get_component_name cls := length (heap p)]> (started_components p))
          (with_events (starting self request p)))).
Proof.
  intros Hreg Hmiss Hch Hinit.
  destruct (sensor_start_fresh self p request cls Hreg Hmiss)
    as [(e' & He' & _)|(o & _ & Hheap & Heq)]; [congruence|].
  rewrite (base_start_init_raises self (starting self request p) request cls Hreg ch e
             Hch Hinit) in *.
  unfold process_of, self_of in *. cbn in *.
  apply app_inv_head in Hheap. injection Hheap as <-. exact Heq.
Qed.

(** C3 fails on the code: when the first start of a class fails because its
    constructor raises, the [SICNotStartedMessage] is stored in the cache
    like a success, and the next request for the class is answered from the
    cache with a copy of that failure, without a new start attempt (no event
    is created, no component is added). *)
Theorem C3_failure_reply_is_cached_and_served_again
    (self : manager) (p : process) (request : SICStartComponentRequest)
    (cls : component_class) (ch : string) (e : exn) :
  mclass self = SICSensorManager ->
  component_classes self !! component_name request = Some cls ->
  started_components p !! get_component_name cls = None ->
  get_output_channel cls (ip self) = Ret ch ->
  cc_init cls ch (log_level request) (conf request) = Raise e ->
  let r1 := _handle_request (StartComponent request) self p in
  let r2 := _handle_request (StartComponent request) (self_of r1) (process_of r1) in
  (exists lc,
     cache_of (self_of r1) (process_of r1) !! get_component_name cls = Some lc /\
     class_of (process_of r1) lc = Some SICNotStartedMessage /\
     getattr (process_of r1) lc "message" = Some (VExn e) /\
     getattr (process_of r1) lc "component_is_singleton" = Some (VBool true)) /\
  (exists l2,
     result_of r2 = Ret l2 /\
     class_of (process_of r2) l2 = Some SICNotStartedMessage /\
     getattr (process_of r2) l2 "message" = Some (VExn e)) /\
  events (process_of r2) = events (process_of r1) /\
  active_components (self_of r2) = active_components self /\
  last (log (process_of r2)) =
    Some (log_entry self INFO ("Reusing existing component " +:+ get_component_name cls)).
Proof.
  intros Hsensor Hreg Hmiss Hch Hinit r1 r2. subst r2 r1.
  rewrite (handle_start_sensor self p request cls Hsensor Hreg).
  rewrite (sensor_start_init_raises self (handling self request p) request cls ch e
             Hreg Hmiss Hch Hinit).
  unfold result_of, self_of, process_of. cbn [fst snd].
  set (p1 := set_heap (heap (handling self request p) ++ _) _).
  assert (Hcached : started_components (handling self request p1) !! get_component_name cls
                    = Some (length (heap p))) by (cbn; apply lookup_insert_eq).
  assert (Hobj : heap (handling self request p1) !! length (heap p)
                 = Some (mark_singleton (not_started_message e)))
    by (cbn; apply list_lookup_middle; reflexivity).
  rewrite (handle_start_sensor self p1 request cls Hsensor Hreg).
  rewrite (sensor_start_cached self (handling self request p1) request cls _ _
             Hreg Hcached Hobj).
  destruct (not_started_marked e) as [Hcls Hmsg].
  unfold class_of, getattr, cache_of. cbn.
  split; [|split; [|split; [reflexivity|split; [reflexivity|]]]].
  - exists (length (heap p)). rewrite lookup_insert_eq.
    rewrite (list_lookup_middle (heap p) _ (mark_singleton (not_started_message e))
               (length (heap p)) eq_refl). cbn.
    split; [reflexivity|]. split; [reflexivity|]. split; [exact Hmsg|].
    apply singleton_flag_mark.
  - eexists. split; [reflexivity|]. rewrite lookup_snoc. cbn.
    split; [reflexivity|exact Hmsg].
  - rewrite last_snoc. reflexivity.
Qed.

Lemma C3_witness :
  let self := (Demo.sensor [Demo.broken_class "camera"]).1 in
  let p := (Demo.sensor [Demo.broken_class "camera"]).2 in
  let cls := Demo.broken_class "camera" in
  let r1 := _handle_request (StartComponent (Demo.req "camera")) self p in
  let r2 := _handle_request (StartComponent (Demo.req "camera")) (self_of r1) (process_of r1) in
  (exists lc,
     cache_of (self_of r1) (process_of r1) !! get_component_name cls = Some lc /\
     class_of (process_of r1) lc = Some SICNotStartedMessage /\
     getattr (process_of r1) lc "message" = Some (VExn Demo.no_camera) /\
     getattr (process_of r1) lc "component_is_singleton" = Some (VBool true)) /\
  (exists l2,
     result_of r2 = Ret l2 /\
     class_of (process_of r2) l2 = Some SICNotStartedMessage /\
     getattr (process_of r2) l2 "message" = Some (VExn Demo.no_camera)) /\
  events (process_of r2) = events (process_of r1) /\
  active_components (self_of r2) = active_components self /\
  last (log (process_of r2)) =
    Some (log_entry self INFO ("Reusing existing component " +:+ get_component_name cls)).
Proof.
  apply (C3_failure_reply_is_cached_and_served_again
           (Demo.sensor [Demo.broken_class "camera"]).1
           (Demo.sensor [Demo.broken_class "camera"]).2
           (Demo.req "camera") (Demo.broken_class "camera") "camera:10.0.0.5"
           Demo.no_camera); vm_compute; reflexivity.
Defined.

(** ** One reply per request: C1 *)

(** When [get_output_channel] returns for the requested class, every request
    is answered with one message object. *)
Lemma handle_request_replies self p request :
  cache_ok p ->
  (forall start cls,
     request = StartComponent start ->
     component_classes self !! component_name start = Some cls ->
     exists ch, get_output_channel cls (ip self) = Ret ch) ->
  exists l, result_of (_handle_request request self p) = Ret l /\
    is_Some (heap (process_of (_handle_request request self p)) !! l).
Proof.
  intros Hok Hch. destruct request as [|request].
  - rewrite handle_stop. eexists. split; [reflexivity|].
    unfold process_of. cbn. rewrite lookup_snoc. eauto.
  - destruct (component_classes self !! component_name request) as [cls|] eqn:Hreg.
    + destruct (Hch request cls eq_refl Hreg) as [ch Hchannel].
      destruct (mclass self) eqn:Hclass.
      * rewrite (handle_start_plain self p request cls Hclass Hreg).
        destruct (base_start_cases self (handling self request p) request cls Hreg);
          [congruence| |]; eexists; (split; [reflexivity|]);
          unfold process_of; cbn; rewrite lookup_snoc; eauto.
      * rewrite (handle_start_sensor self p request cls Hclass Hreg).
        destruct (started_components (handling self request p) !! get_component_name cls)
          as [lc|] eqn:Hcache.
        -- destruct (Hok _ _ Hcache) as (o & Hobj & _).
           rewrite (sensor_start_cached self _ request cls lc o Hreg Hcache Hobj).
           eexists. split; [reflexivity|].
           unfold process_of. cbn. rewrite lookup_snoc. eauto.
        -- destruct (sensor_start_fresh self _ request cls Hreg Hcache)
             as [(e & He & _)|(o & _ & _ & Heq)]; [congruence|].
           rewrite Heq. eexists. split; [reflexivity|].
           unfold process_of. cbn. rewrite lookup_snoc2. eauto.
    + rewrite (handle_unknown self p request Hreg). eexists. split; [reflexivity|].
      unfold process_of. cbn. rewrite lookup_snoc. eauto.
Qed.

(** C1 fails on the code: [get_output_channel] is called before the [try]
    of [start_component], so when it raises for a registered class, the
    exception leaves [_handle_request] and no reply object is created. *)
Theorem C1_output_channel_failure_escapes_the_handler
    (self : manager) (p : process) (request : SICStartComponentRequest)
    (cls : component_class) (e : exn) :
  component_classes self !! component_name request = Some cls ->
  mclass self = SICComponentManager \/
    started_components p !! get_component_name cls = None ->
  get_output_channel cls (ip self) = Raise e ->
  let r := _handle_request (StartComponent request) self p in
  result_of r = Raise e /\
  heap (process_of r) = heap p /\
  active_components (self_of r) = active_components self.
Proof.
  intros Hreg Hcase Hch r. subst r.
  destruct (mclass self) eqn:Hclass.
  - rewrite (handle_start_plain self p request cls Hclass Hreg).
    rewrite (base_start_channel_raises self _ request cls Hreg e Hch).
    repeat split.
  - destruct Hcase as [|Hmiss]; [discriminate|].
    rewrite (handle_start_sensor self p request cls Hclass Hreg).
    destruct (sensor_start_fresh self (handling self request p) request cls Hreg Hmiss)
      as [(e' & He' & Heq)|(o & Hret & _)].
    + rewrite Heq. rewrite Hch in He'. injection He' as <-. repeat split.
    + rewrite (base_start_channel_raises self _ request cls Hreg e Hch) in Hret.
      discriminate.
Qed.

Lemma C1_witness :
  let self := (Demo.plain [Demo.no_channel_class "echo"]).1 in
  let p := (Demo.plain [Demo.no_channel_class "echo"]).2 in
  let r := _handle_request (StartComponent (Demo.req "echo")) self p in
  result_of r = Raise Demo.bad_address /\
  heap (process_of r) = heap p /\
  active_components (self_of r) = active_components self.
Proof.
  apply (C1_output_channel_failure_escapes_the_handler
           (Demo.plain [Demo.no_channel_class "echo"]).1
           (Demo.plain [Demo.no_channel_class "echo"]).2
           (Demo.req "echo") (Demo.no_channel_class "echo") Demo.bad_address).
  - vm_compute; reflexivity.
  - left. reflexivity.
  - reflexivity.
Defined.

(** ** Stop requests: C10 *)

(** C10: handling a [SICStopRequest] sets the manager's stop event and
    creates the reply, and nothing else: the manager instance (its active
    components, its registry, its bus connection) and the singleton cache
    are unchanged, every other event, the stop events of the components
    among them, keeps its state, and nothing is printed or logged, so
    [shutdown] has not run. *)
Theorem C10_stop_request_only_sets_the_stop_event (self : manager) (p : process) :
  let r := _handle_request SICStopRequest self p in
  self_of r = self /\
  active_components (self_of r) = active_components self /\
  component_classes (self_of r) = component_classes self /\
  cache_of (self_of r) (process_of r) = cache_of self p /\
  events (process_of r) = <[stop_event self := true]> (events p) /\
  (forall ev, ev <> stop_event self -> is_set (process_of r) ev = is_set p ev) /\
  (forall c, c ∈ active_components self -> _stop_event c <> stop_event self ->
     is_set (process_of r) (_stop_event c) = is_set p (_stop_event c)) /\
  stdout (process_of r) = stdout p /\
  log (process_of r) = log p /\
  (exists l, result_of r = Ret l /\ class_of (process_of r) l = Some SICSuccessMessage).
Proof.
  intros r. subst r. rewrite handle_stop.
  unfold self_of, process_of, result_of, cache_of, is_set, class_of. cbn.
  repeat (split; [reflexivity|]).
  split; [intros ev Hne; rewrite list_lookup_insert_ne by auto; reflexivity|].
  split; [intros c _ Hne; rewrite list_lookup_insert_ne by auto; reflexivity|].
  repeat (split; [reflexivity|]).
  exists (length (heap p)). rewrite lookup_snoc. split; reflexivity.
Qed.

Lemma C10_witness :
  let self := (Demo.running Demo.good_redis).1 in
  let p := (Demo.running Demo.good_redis).2 in
  let r := _handle_request SICStopRequest self p in
  length (active_components (self_of r)) = 1 /\
  is_set (process_of r) (stop_event self) = true /\
  Forall (fun c => is_set (process_of r) (_stop_event c) = false) (active_components self).
Proof.
  destruct (C10_stop_request_only_sets_the_stop_event
              (Demo.running Demo.good_redis).1 (Demo.running Demo.good_redis).2)
    as (Hself & _ & _ & _ & Hev & _ & Hcomp & _).
  cbv zeta. rewrite Hself. split; [reflexivity|]. split; [vm_compute; reflexivity|].
  apply Forall_forall. intros c Hc. rewrite (Hcomp c Hc).
  - revert c Hc. apply Forall_forall. vm_compute. repeat constructor.
  - revert c Hc. apply Forall_forall. vm_compute. repeat constructor; discriminate.
Defined.

(** ** Shutdown and the serve loop: C8, C9 *)

Lemma for_each_stop (l : list component) self p :
  for_each l (fun component => event_set (_stop_event component)) self p =
    (Ret tt, self, set_events (stop_events l (events p)) p).
Proof.
  revert p. induction l as [|c l IH]; intros p.
  - destruct p; reflexivity.
  - cbn [for_each]. unfold bind, event_set, modify_process at 1. cbn [fst snd].
    rewrite IH. reflexivity.
Qed.

Lemma stop_events_keeps l ev i : ev !! i = Some true -> stop_events l ev !! i = Some true.
Proof.
  unfold stop_events. revert ev. induction l as [|c l IH]; intros ev Hi; [assumption|].
  cbn. apply IH. destruct (decide (_stop_event c = i)) as [->|Hne].
  - apply list_lookup_insert_eq. eapply lookup_lt_Some; eassumption.
  - rewrite list_lookup_insert_ne by assumption. assumption.
Qed.

Lemma stop_events_sets l ev c :
  c ∈ l -> _stop_event c < length ev -> stop_events l ev !! _stop_event c = Some true.
Proof.
  revert ev. induction l as [|c' l IH]; intros ev Hin Hlt.
  - inversion Hin.
  - change (stop_events (c' :: l) ev)
      with (stop_events l (<[_stop_event c' := true]> ev)).
    apply elem_of_cons in Hin as [->|Hin].
    + apply stop_events_keeps. apply list_lookup_insert_eq. assumption.
    + apply IH; [assumption|]. rewrite length_insert. assumption.
Qed.

Section Shutdown.

Variables (self : manager) (p : process).

Lemma shutdown_closed :
  redis_close (redis self) = Ret tt ->
  shutdown self p =
    (Ret tt,
     set_redis {| redis_close := Ret tt; redis_closed := true |} self,
     set_stdout (stdout p ++ [trying; "Graceful exit was successful"])
       (set_events (stop_events (active_components self) (events p)) p)).
Proof.
  intros Hclose. unfold shutdown, try_except, close_redis.
  unfold bind at 1 2 3 4 5. unfold print at 1, get_self at 1, modify_process at 1. cbn.
  rewrite Hclose. cbn. unfold bind, get_self. cbn. rewrite for_each_stop. cbn.
  unfold set_redis, set_stdout, set_events. cbn. rewrite Hclose, <- app_assoc.
  reflexivity.
Qed.

Lemma shutdown_reports msg e :
  redis_close (redis self) = Raise e ->
  exn_message e = Some msg ->
  shutdown self p =
    (Ret tt, self,
     set_stdout (stdout p ++ [trying; "Graceful exit has failed: " +:+ msg]) p).
Proof.
  intros Hclose Hmsg. unfold shutdown, try_except, close_redis, getattr_message.
  unfold bind at 1 2 3 4 5. unfold print at 1, get_self at 1, modify_process at 1. cbn.
  rewrite Hclose. cbn. rewrite Hmsg. cbn.
  unfold print, modify_process, set_stdout. cbn. rewrite <- app_assoc. reflexivity.
Qed.

Lemma shutdown_report_raises e :
  redis_close (redis self) = Raise e ->
  exn_message e = None ->
  shutdown self p =
    (Raise (AttributeError "message"), self, set_stdout (stdout p ++ [trying]) p).
Proof.
  intros Hclose Hmsg. unfold shutdown, try_except, close_redis, getattr_message.
  unfold bind at 1 2 3 4 5. unfold print at 1, get_self at 1, modify_process at 1. cbn.
  rewrite Hclose. cbn. rewrite Hmsg. reflexivity.
Qed.

(** When the bus connection closes, [shutdown] sets the stop event of
    every active component. *)
Lemma shutdown_stops_all :
  redis_close (redis self) = Ret tt ->
  (forall c, c ∈ active_components self -> _stop_event c < length (events p)) ->
  result_of (shutdown self p) = Ret tt /\
  all_stopped (self_of (shutdown self p)) (process_of (shutdown self p)).
Proof.
  intros Hclose Hvalid. rewrite (shutdown_closed Hclose). split; [reflexivity|].
  intros c Hc. unfold self_of, process_of, is_set in *. cbn in *.
  rewrite (stop_events_sets _ _ c Hc (Hvalid c Hc)). reflexivity.
Qed.

End Shutdown.

(** While nothing arrives and the stop event is not set, the loop of
    [serve] keeps waiting. *)
Lemma wait_loop_idle n rest self p :
  is_set p (stop_event self) = false ->
  wait_loop (replicate n [] ++ rest) self p = wait_loop rest self p.
Proof.
  intros Hidle. induction n as [|n IH]; [reflexivity|].
  cbn [replicate app wait_loop deliver_all].
  unfold bind at 1 2 3, ret at 1, get_self at 1.
  unfold event_is_set, bind, get_process, ret. cbn [fst snd].
  unfold is_set in Hidle. rewrite Hidle. exact IH.
Qed.

(** So [serve] does not return, and [shutdown] does not run, as long as the
    stop event stays unset. *)
Lemma serve_waits n self p :
  is_set p (stop_event self) = false ->
  serve (replicate n []) self p = (Ret false, self, p).
Proof.
  intros Hidle. unfold serve, bind.
  rewrite <- (app_nil_r (replicate n [])), wait_loop_idle by assumption.
  reflexivity.
Qed.

(** A stop request arriving during a wait ends the loop. *)
Lemma wait_loop_stop rest self p :
  stop_event self < length (events p) ->
  wait_loop ([SICStopRequest] :: rest) self p = (Ret true, self, stop_handled self p).
Proof.
  intros Hvalid. cbn [wait_loop deliver_all].
  unfold bind at 1 2 3 4, deliver. rewrite handle_stop.
  unfold ret at 1, get_self at 1, event_is_set, bind, get_process, ret. cbn.
  rewrite list_lookup_insert_eq by assumption. reflexivity.
Qed.

Lemma serve_stop n self p :
  is_set p (stop_event self) = false ->
  stop_event self < length (events p) ->
  serve (replicate n [] ++ [[SICStopRequest]]) self p =
    (shutdown ;; print "Stopped component manager." ;; ret true)
      self (stop_handled self p).
Proof.
  intros Hidle Hvalid. unfold serve. unfold bind at 1.
  rewrite wait_loop_idle by assumption. rewrite wait_loop_stop by assumption.
  reflexivity.
Qed.

Section ServeStop.

Variables (n : nat) (self : manager) (p : process).
Hypothesis idle : is_set p (stop_event self) = false.
Hypothesis valid : stop_event self < length (events p).

Let arrivals : list (list SICRequest) := replicate n [] ++ [[SICStopRequest]].

Lemma serve_closed :
  redis_close (redis self) = Ret tt ->
  serve arrivals self p =
    (Ret true,
     set_redis {| redis_close := Ret tt; redis_closed := true |} self,
     set_stdout (stdout p ++ [trying; "Graceful exit was successful";
                              "Stopped component manager."])
       (set_events (stop_events (active_components self)
                      (<[stop_event self := true]> (events p)))
          (stop_handled self p))).
Proof.
  intros Hclose. unfold arrivals. rewrite serve_stop by assumption.
  unfold bind at 1. rewrite (shutdown_closed self _ Hclose).
  unfold bind, print, modify_process, ret, set_stdout. cbn.
  rewrite <- app_assoc. reflexivity.
Qed.

Lemma serve_reports e msg :
  redis_close (redis self) = Raise e ->
  exn_message e = Some msg ->
  serve arrivals self p =
    (Ret true, self,
     set_stdout (stdout p ++ [trying; "Graceful exit has failed: " +:+ msg;
                              "Stopped component manager."])
       (stop_handled self p)).
Proof.
  intros Hclose Hmsg. unfold arrivals. rewrite serve_stop by assumption.
  unfold bind at 1. rewrite (shutdown_reports self _ msg e Hclose Hmsg).
  unfold bind, print, modify_process, ret, set_stdout. cbn.
  rewrite <- app_assoc. reflexivity.
Qed.

Lemma serve_report_raises e :
  redis_close (redis self) = Raise e ->
  exn_message e = None ->
  serve arrivals self p =
    (Raise (AttributeError "message"), self,
     set_stdout (stdout p ++ [trying]) (stop_handled self p)).
Proof.
  intros Hclose Hmsg. unfold arrivals. rewrite serve_stop by assumption.
  unfold bind at 1. rewrite (shutdown_report_raises self _ e Hclose Hmsg).
  reflexivity.
Qed.

End ServeStop.

(** When closing the bus connection succeeds, [serve] returns after a stop
    request with the stop event of every active component set. *)
Lemma serve_stops_all_when_close_succeeds n self p :
  is_set p (stop_event self) = false ->
  stop_event self < length (events p) ->
  (forall c, c ∈ active_components self -> _stop_event c < length (events p)) ->
  redis_close (redis self) = Ret tt ->
  let r := serve (replicate n [] ++ [[SICStopRequest]]) self p in
  result_of r = Ret true /\
  all_stopped (self_of r) (process_of r) /\
  last (stdout (process_of r)) = Some "Stopped component manager.".
Proof.
  intros Hidle Hvalid Hcomps Hclose r. subst r.
  rewrite (serve_closed n self p Hidle Hvalid Hclose).
  unfold result_of, self_of, process_of. cbn.
  split; [reflexivity|].
  split; [|rewrite last_app; reflexivity].
  intros c Hc. unfold is_set. cbn in *.
  rewrite (stop_events_sets _ _ c Hc); [reflexivity|].
  rewrite length_insert. auto.
Qed.

(** C8 fails on the code: [close()] and the loop over the active components
    share one [try], so when closing the bus connection raises, [serve]
    still leaves its loop, prints the failure and returns, but no stop event
    of a component has been set: each is as it was before the stop request. *)
Theorem C8_close_failure_leaves_components_unsignalled
    (n : nat) (self : manager) (p : process) (e : exn) (msg : string) :
  is_set p (stop_event self) = false ->
  stop_event self < length (events p) ->
  redis_close (redis self) = Raise e ->
  exn_message e = Some msg ->
  let r := serve (replicate n [] ++ [[SICStopRequest]]) self p in
  result_of r = Ret true /\
  is_set (process_of r) (stop_event self) = true /\
  stdout (process_of r) =
    stdout p ++ [trying; "Graceful exit has failed: " +:+ msg;
                 "Stopped component manager."] /\
  (forall c, c ∈ active_components self -> _stop_event c <> stop_event self ->
     is_set (process_of r) (_stop_event c) = is_set p (_stop_event c)).
Proof.
  intros Hidle Hvalid Hclose Hmsg r. subst r.
  rewrite (serve_reports n self p Hidle Hvalid e msg Hclose Hmsg).
  unfold result_of, self_of, process_of, is_set. cbn.
  split; [reflexivity|].
  split; [rewrite list_lookup_insert_eq by assumption; reflexivity|].
  split; [reflexivity|].
  intros c _ Hne. rewrite list_lookup_insert_ne by auto. reflexivity.
Qed.

Lemma C8_witness :
  let self := (Demo.running Demo.failing_redis).1 in
  let p := (Demo.running Demo.failing_redis).2 in
  let r := serve (replicate 2 [] ++ [[SICStopRequest]]) self p in
  result_of r = Ret true /\
  is_set (process_of r) (stop_event self) = true /\
  stdout (process_of r) =
    stdout p ++ [trying; "Graceful exit has failed: " +:+ "connection lost";
                 "Stopped component manager."] /\
  (forall c, c ∈ active_components self -> _stop_event c <> stop_event self ->
     is_set (process_of r) (_stop_event c) = is_set p (_stop_event c)).
Proof.
  apply (C8_close_failure_leaves_components_unsignalled 2
           (Demo.running Demo.failing_redis).1 (Demo.running Demo.failing_redis).2
           Demo.lost_with_message "connection lost").
  - reflexivity.
  - vm_compute. lia.
  - reflexivity.
  - reflexivity.
Defined.

(** The same run, evaluated: one component is active, and after [serve]
    has returned its stop event is still unset. *)
Lemma serve_leaves_component_running :
  let self := (Demo.running Demo.failing_redis).1 in
  let p := (Demo.running Demo.failing_redis).2 in
  let r := serve [[SICStopRequest]] self p in
  result_of r = Ret true /\
  _stop_event <$> active_components (self_of r) = [2] /\
  is_set (process_of r) 2 = false.
Proof. vm_compute. repeat split. Qed.

(** C9 fails on the code: the handler of [shutdown] formats [err.message];
    when the exception raised by [close()] has no attribute [message], this
    raises an [AttributeError] inside the handler, which leaves [shutdown]
    (and [serve]) before anything about the failure is printed. *)
Theorem C9_error_report_raises_without_message_attribute
    (n : nat) (self : manager) (p : process) (e : exn) :
  redis_close (redis self) = Raise e ->
  exn_message e = None ->
  result_of (shutdown self p) = Raise (AttributeError "message") /\
  stdout (process_of (shutdown self p)) = stdout p ++ [trying] /\
  (is_set p (stop_event self) = false ->
   stop_event self < length (events p) ->
   let r := serve (replicate n [] ++ [[SICStopRequest]]) self p in
   result_of r = Raise (AttributeError "message") /\
   stdout (process_of r) = stdout p ++ [trying]).
Proof.
  intros Hclose Hmsg.
  rewrite (shutdown_report_raises self p e Hclose Hmsg).
  split; [reflexivity|]. split; [reflexivity|].
  intros Hidle Hvalid r. subst r.
  rewrite (serve_report_raises n self p Hidle Hvalid e Hclose Hmsg).
  split; reflexivity.
Qed.

Lemma C9_witness :
  let self := (Demo.running Demo.failing_redis_py3).1 in
  let p := (Demo.running Demo.failing_redis_py3).2 in
  result_of (shutdown self p) = Raise (AttributeError "message") /\
  stdout (process_of (shutdown self p)) = stdout p ++ [trying] /\
  (is_set p (stop_event self) = false ->
   stop_event self < length (events p) ->
   let r := serve (replicate 0 [] ++ [[SICStopRequest]]) self p in
   result_of r = Raise (AttributeError "message") /\
   stdout (process_of r) = stdout p ++ [trying]).
Proof.
  apply (C9_error_report_raises_without_message_attribute 0
           (Demo.running Demo.failing_redis_py3).1 (Demo.running Demo.failing_redis_py3).2
           Demo.lost); reflexivity.
Defined.

(** With a [message] attribute on whatever [close()] raises, [shutdown]
    returns normally. *)
Lemma shutdown_returns_when_message_present self p :
  (forall e, redis_close (redis self) = Raise e -> is_Some (exn_message e)) ->
  result_of (shutdown self p) = Ret tt.
Proof.
  intros Hmsg. destruct (redis_close (redis self)) as [[]|e] eqn:Hclose.
  - rewrite (shutdown_closed self p Hclose). reflexivity.
  - destruct (Hmsg e eq_refl) as [msg He].
    rewrite (shutdown_reports self p msg e Hclose He). reflexivity.
Qed.

(** * Further properties of the manager *)

(** ** Requests only add *)

Lemma same_manager_refl self : same_manager self self.
Proof. repeat split. Qed.

Lemma same_manager_trans a b c : same_manager a b -> same_manager b c -> same_manager a c.
Proof.
  intros (H1 & H2 & H3 & H4 & H5 & H6 & H7) (G1 & G2 & G3 & G4 & G5 & G6 & G7).
  repeat split; congruence.
Qed.

Lemma evolves_refl self p : evolves self p self p.
Proof.
  split; [apply same_manager_refl|].
  split; [reflexivity|]. split; [reflexivity|]. split; [reflexivity|].
  split; [reflexivity|]. split; [reflexivity|]. split; [reflexivity|].
  split; [reflexivity|]. intros Hset. exact Hset.
Qed.

Lemma evolves_trans a p b q c r :
  evolves a p b q -> evolves b q c r -> evolves a p c r.
Proof.
  intros (Hm & Hac & Hh & Hc & Ho & Hl & Hlen & Hev & Hstop)
         (Hm' & Hac' & Hh' & Hc' & Ho' & Hl' & Hlen' & Hev' & Hstop').
  assert (Hs : stop_event b = stop_event a) by apply Hm.
  split; [eapply same_manager_trans; eassumption|].
  split; [etrans; eassumption|]. split; [etrans; eassumption|].
  split; [etrans; eassumption|]. split; [etrans; eassumption|].
  split; [etrans; eassumption|]. split; [lia|]. split.
  - intros i Hi Hne. rewrite Hev' by (rewrite ?Hs; auto; lia). auto.
  - intros Hset. rewrite <- Hs. apply Hstop'. rewrite Hs. auto.
Qed.

Lemma ready_events (ev : list bool) :
  <[length (ev ++ [false]) := true]> ((ev ++ [false]) ++ [false]) = ev ++ [false; true].
Proof.
  replace (length (ev ++ [false])) with (length (ev ++ [false]) + 0) by lia.
  rewrite insert_app_r, <- app_assoc. reflexivity.
Qed.

Lemma unready_events (ev : list bool) : (ev ++ [false]) ++ [false] = ev ++ [false; false].
Proof. rewrite <- app_assoc. reflexivity. Qed.

(** The three shapes of the result of [SICComponentManager.start_component]
    for a registered class. *)
Lemma base_start_shape self p request cls :
  component_classes self !! component_name request = Some cls ->
  let r := SICComponentManager_start_component request self p in
  (exists e, get_output_channel cls (ip self) = Raise e /\ r = (Raise e, self, p)) \/
  (exists e, r = (Ret (length (heap p)), self,
                  set_heap (heap p ++ [not_started_message e])
                    (set_events (events p ++ [false; false]) p))) \/
  (exists ch b lg,
     healthy cls (ip self) request /\
     b = cc_ready_in_time cls /\
     lg = (if b then [] else [log_entry self ERROR (refused_to_start (new_component p cls ch))]) /\
     get_output_channel cls (ip self) = Ret ch /\
     r = (Ret (length (heap p)),
          set_active_components (active_components self ++ [new_component p cls ch]) self,
          set_heap (heap p ++ [started_information ch])
            (set_log (log p ++ lg) (set_events (events p ++ [false; b]) p)))).
Proof.
  intros Hreg r. subst r.
  destruct (get_output_channel cls (ip self)) as [ch|e] eqn:Hch.
  - destruct (cc_init cls ch (log_level request) (conf request)) as [[]|e] eqn:Hinit.
    + destruct (cc_thread_start cls) as [[]|e] eqn:Hstart.
      * right. right. exists ch, (cc_ready_in_time cls). eexists.
        split; [exists ch; auto|]. split; [reflexivity|]. split; [reflexivity|].
        split; [reflexivity|].
        destruct (cc_ready_in_time cls) eqn:Hready.
        -- rewrite (base_start_ready self p request cls Hreg ch Hch Hinit Hstart Hready).
           rewrite ready_events, app_nil_r. reflexivity.
        -- rewrite (base_start_not_ready self p request cls Hreg ch Hch Hinit Hstart Hready).
           unfold with_events. rewrite unready_events. reflexivity.
      * right. left. exists e.
        rewrite (base_start_launch_raises self p request cls Hreg ch e Hch Hinit Hstart).
        unfold with_events. rewrite unready_events. reflexivity.
    + right. left. exists e.
      rewrite (base_start_init_raises self p request cls Hreg ch e Hch Hinit).
      unfold with_events. rewrite unready_events. reflexivity.
  - left. exists e. split; [reflexivity|].
    apply (base_start_channel_raises self p request cls Hreg e Hch).
Qed.

Ltac prefix_tac :=
  match goal with
  | |- ?l `prefix_of` ?l => reflexivity
  | |- ?l `prefix_of` ?l ++ _ => apply prefix_app_r; reflexivity
  end.

Lemma evolves_same_events self p self' p' :
  same_manager self self' ->
  active_components self `prefix_of` active_components self' ->
  heap p `prefix_of` heap p' ->
  started_components p ⊆ started_components p' ->
  stdout p `prefix_of` stdout p' ->
  log p `prefix_of` log p' ->
  events p `prefix_of` events p' ->
  evolves self p self' p'.
Proof.
  intros Hm Ha Hh Hc Ho Hl Hev.
  repeat (split; [assumption|]). split; [apply prefix_length; assumption|].
  destruct Hev as [ext Hext]. unfold is_set. rewrite Hext. split.
  - intros i Hi _. apply lookup_app_l. assumption.
  - intros Hset. destruct (events p !! stop_event self) as [b|] eqn:Hb;
      [|discriminate]. rewrite (lookup_app_l_Some _ _ _ _ Hb). exact Hset.
Qed.

Lemma base_start_step self p request cls :
  component_classes self !! component_name request = Some cls ->
  start_step self p (SICComponentManager_start_component request self p) /\
  started_components (process_of (SICComponentManager_start_component request self p))
    = started_components p /\
  stdout (process_of (SICComponentManager_start_component request self p)) = stdout p.
Proof.
  intros Hreg.
  destruct (base_start_shape self p request cls Hreg)
    as [(e & _ & ->)|[(e & ->)|(ch & b & lg & _ & _ & _ & _ & ->)]];
    (split; [|split; reflexivity]); unfold start_step, self_of, process_of, result_of;
    cbn [fst snd].
  - split; [apply evolves_refl|]. split; [reflexivity|]. split; [left; reflexivity|].
    split; [lia|]. intros l [=].
  - split; [apply evolves_same_events; cbn; try prefix_tac; try reflexivity;
            apply same_manager_refl|].
    cbn. split; [prefix_tac|]. split; [left; reflexivity|].
    rewrite length_app. cbn. split; [lia|]. intros l [= <-]. lia.
  - split; [apply evolves_same_events; cbn; try prefix_tac; try reflexivity;
            repeat split|].
    cbn. split; [prefix_tac|]. split.
    + right. exists (new_component p cls ch). cbn. rewrite !length_app. cbn.
      split; [reflexivity|]. split; [reflexivity|]. split; [lia|]. split; [lia|].
      apply list_lookup_middle. reflexivity.
    + rewrite length_app. cbn. split; [lia|]. intros l [= <-]. lia.
Qed.

(** A step from a process that differs from [p] by printed or logged lines
    only is a step from [p]. *)
Lemma start_step_after_output self p q r :
  heap q = heap p ->
  events q = events p ->
  started_components q = started_components p ->
  stdout p `prefix_of` stdout q ->
  log p `prefix_of` log q ->
  start_step self q r -> start_step self p r.
Proof.
  intros Hh He Hc Ho Hl ((Hm & Ha & Hh' & Hc' & Ho' & Hl' & Hlen & Hev & Hstop)
                         & Hpre & Hlaunch & Hheap & Hret).
  unfold start_step, evolves, launched_at_most_one, is_set in *.
  rewrite Hh, He, Hc in *.
  split; [|auto].
  repeat (split; [assumption|]).
  split; [etrans; eassumption|]. split; [etrans; eassumption|]. auto.
Qed.

Lemma sensor_start_step self p request cls :
  component_classes self !! component_name request = Some cls ->
  start_step self p (SICSensorManager_start_component request self p).
Proof.
  intros Hreg.
  destruct (started_components p !! get_component_name cls) as [lc|] eqn:Hcache.
  - destruct (heap p !! lc) as [o|] eqn:Hobj.
    + rewrite (sensor_start_cached self p request cls lc o Hreg Hcache Hobj).
      unfold start_step, self_of, process_of, result_of. cbn [fst snd].
      split; [apply evolves_same_events; cbn; try prefix_tac; try reflexivity;
              apply same_manager_refl|].
      cbn. split; [reflexivity|]. split; [left; reflexivity|].
      rewrite length_app. cbn. split; [lia|]. intros l [= <-]. lia.
    + assert (SICSensorManager_start_component request self p =
                (Raise (Exn "ReferenceError" "dangling reference" None), self,
                 reusing self (get_component_name cls) p)) as ->.
      { run_outer. rewrite Hreg. cbn. rewrite Hcache. cbn. rewrite Hobj. reflexivity. }
      unfold start_step, self_of, process_of, result_of. cbn [fst snd].
      split; [apply evolves_same_events; cbn; try prefix_tac; try reflexivity;
              apply same_manager_refl|].
      cbn. split; [reflexivity|]. split; [left; reflexivity|].
      split; [lia|]. intros l [=].
  - destruct (sensor_start_fresh self p request cls Hreg Hcache)
      as [(e & _ & ->)|(o & Hret & Hheap & ->)].
    + unfold start_step, self_of, process_of, result_of. cbn [fst snd].
      split; [apply evolves_same_events; cbn; try prefix_tac; try reflexivity;
              apply same_manager_refl|].
      cbn. split; [reflexivity|]. split; [left; reflexivity|].
      split; [lia|]. intros l [=].
    + destruct (base_start_step self (starting self request p) request cls Hreg)
        as (((Hm & Ha & _ & _ & _ & Hl & Hlen & Hev & Hstop) & Hpre & Hlaunch & _)
            & _ & Hout).
      set (r0 := SICComponentManager_start_component request self
                   (starting self request p)) in *.
      unfold start_step, evolves, launched_at_most_one, is_set, self_of, process_of,
        result_of in *. cbn [fst snd] in *. cbn in *.
      split; [|split; [assumption|split; [assumption|]]].
      * split; [assumption|]. split; [assumption|]. split; [prefix_tac|].
        split; [apply insert_subseteq; assumption|].
        split; [rewrite Hout; reflexivity|].
        split; [etrans; [|eassumption]; prefix_tac|]. auto.
      * rewrite length_app. cbn. split; [lia|]. intros l [= <-]. lia.
Qed.

Lemma handle_request_evolves self p request :
  evolves self p (self_of (_handle_request request self p))
    (process_of (_handle_request request self p)).
Proof.
  destruct request as [|request].
  - rewrite handle_stop. unfold self_of, process_of, evolves, is_set. cbn.
    split; [apply same_manager_refl|]. split; [reflexivity|]. split; [prefix_tac|].
    split; [reflexivity|]. split; [reflexivity|]. split; [reflexivity|].
    rewrite length_insert. split; [lia|]. split.
    + intros i _ Hne. apply list_lookup_insert_ne. auto.
    + intros Hset. destruct (events p !! stop_event self) as [b|] eqn:Hb; [|discriminate].
      rewrite list_lookup_insert_eq by (eapply lookup_lt_Some; eassumption). reflexivity.
  - destruct (component_classes self !! component_name request) as [cls|] eqn:Hreg.
    + assert (Hstep : start_step self (handling self request p)
                        (_handle_request (StartComponent request) self p)).
      { destruct (mclass self) eqn:Hclass.
        - rewrite (handle_start_plain self p request cls Hclass Hreg).
          apply (base_start_step self _ request cls Hreg).
        - rewrite (handle_start_sensor self p request cls Hclass Hreg).
          apply (sensor_start_step self _ request cls Hreg). }
      apply (start_step_after_output self p) in Hstep;
        [apply Hstep|reflexivity|reflexivity|reflexivity|cbn; prefix_tac|reflexivity].
    + rewrite (handle_unknown self p request Hreg).
      apply evolves_same_events; cbn; try prefix_tac; try reflexivity.
      apply same_manager_refl.
Qed.

(** A start request, answered or not, is a [start_step]. *)
Lemma handle_start_step self p request :
  start_step self p (_handle_request (StartComponent request) self p).
Proof.
  destruct (component_classes self !! component_name request) as [cls|] eqn:Hreg.
  - apply (start_step_after_output self p (handling self request p));
      [reflexivity|reflexivity|reflexivity|cbn; prefix_tac|reflexivity|].
    destruct (mclass self) eqn:Hclass.
    + rewrite (handle_start_plain self p request cls Hclass Hreg).
      apply (base_start_step self _ request cls Hreg).
    + rewrite (handle_start_sensor self p request cls Hclass Hreg).
      apply (sensor_start_step self _ request cls Hreg).
  - rewrite (handle_unknown self p request Hreg).
    unfold start_step, self_of, process_of, result_of. cbn [fst snd].
    split; [apply evolves_same_events; cbn; try prefix_tac; try reflexivity;
            apply same_manager_refl|].
    cbn. split; [reflexivity|]. split; [left; reflexivity|].
    rewrite length_app. cbn. split; [lia|]. intros l [= <-]. lia.
Qed.

(** ** Batches of requests *)

Lemma deliver_all_cons request rest self p :
  deliver_all (request :: rest) self p =
    deliver_all rest (self_of (_handle_request request self p))
      (process_of (_handle_request request self p)).
Proof.
  cbn [deliver_all]. unfold bind at 1, deliver, self_of, process_of.
  destruct (_handle_request request self p) as [[r self1] p1]. reflexivity.
Qed.

Lemma deliver_all_returns batch self p : result_of (deliver_all batch self p) = Ret tt.
Proof.
  revert self p. induction batch as [|request rest IH]; intros self p; [reflexivity|].
  rewrite deliver_all_cons. apply IH.
Qed.

Lemma deliver_all_evolves batch self p :
  evolves self p (self_of (deliver_all batch self p)) (process_of (deliver_all batch self p)).
Proof.
  revert self p. induction batch as [|request rest IH]; intros self p.
  - apply evolves_refl.
  - rewrite deliver_all_cons. eapply evolves_trans; [apply handle_request_evolves|apply IH].
Qed.

Lemma handle_request_signals_ok self p request :
  signals_ok self p ->
  signals_ok (self_of (_handle_request request self p))
    (process_of (_handle_request request self p)).
Proof.
  intros (Hvalid & Hcomps & Hdup). destruct request as [|request].
  - rewrite handle_stop. unfold signals_ok, self_of, process_of. cbn.
    rewrite length_insert. split; [assumption|]. split; [|assumption].
    intros c Hc. destruct (Hcomps c Hc) as [Hunset Hne].
    rewrite list_lookup_insert_ne by auto. auto.
  - destruct (handle_start_step self p request)
      as ((Hm & _) & Hpre & Hlaunch & _).
    assert (Hs : stop_event (self_of (_handle_request (StartComponent request) self p))
                 = stop_event self) by apply Hm.
    unfold signals_ok. rewrite Hs.
    split; [pose proof (prefix_length _ _ Hpre); lia|].
    destruct Hlaunch as [->|(c & -> & Hstop & _ & _ & Hunset)].
    + split; [|assumption]. intros c Hc. destruct (Hcomps c Hc) as [Hunset Hne].
      split; [eapply prefix_lookup_Some; eassumption|assumption].
    + split.
      * intros c' Hc'. apply elem_of_app in Hc' as [Hc'|Hc'].
        -- destruct (Hcomps c' Hc') as [Hunset' Hne].
           split; [eapply prefix_lookup_Some; eassumption|assumption].
        -- apply list_elem_of_singleton in Hc' as ->. split; [assumption|lia].
      * rewrite fmap_app. cbn. apply NoDup_app. split; [assumption|].
        split; [|apply NoDup_singleton].
        intros x Hx Hx'. apply list_elem_of_singleton in Hx' as ->.
        apply list_elem_of_fmap in Hx as (c' & Heq & Hc').
        destruct (Hcomps c' Hc') as [Hunset' _].
        apply lookup_lt_Some in Hunset'. lia.
Qed.

Lemma handle_request_stop_flag self p request :
  stop_event self < length (events p) ->
  is_set (process_of (_handle_request request self p)) (stop_event self)
    = is_set p (stop_event self) || is_stop request.
Proof.
  intros Hvalid. destruct request as [|request].
  - rewrite handle_stop. unfold is_set, process_of. cbn.
    rewrite list_lookup_insert_eq by assumption. rewrite orb_true_r. reflexivity.
  - destruct (handle_start_step self p request) as (_ & [ext Hext] & _).
    unfold is_set. rewrite Hext, lookup_app_l by assumption.
    cbn. rewrite orb_false_r. reflexivity.
Qed.

Lemma deliver_all_signals_ok batch self p :
  signals_ok self p ->
  signals_ok (self_of (deliver_all batch self p)) (process_of (deliver_all batch self p)) /\
  is_set (process_of (deliver_all batch self p)) (stop_event self)
    = is_set p (stop_event self) || existsb is_stop batch.
Proof.
  revert self p. induction batch as [|request rest IH]; intros self p Hok.
  - split; [assumption|]. cbn. rewrite orb_false_r. reflexivity.
  - rewrite deliver_all_cons.
    pose proof (handle_request_signals_ok self p request Hok) as Hok1.
    pose proof (handle_request_stop_flag self p request (proj1 Hok)) as Hflag.
    pose proof (handle_request_evolves self p request) as ((_ & _ & _ & _ & _ & Hs & _) & _).
    destruct (IH _ _ Hok1) as [Hok2 Hflag2]. split; [assumption|].
    rewrite Hs in Hflag2. rewrite Hflag2, Hflag. cbn. rewrite orb_assoc. reflexivity.
Qed.

(** ** The serve loop under arbitrary traffic *)

Lemma wait_loop_cons batch rest self p :
  wait_loop (batch :: rest) self p =
    let r := deliver_all batch self p in
    if is_set (process_of r) (stop_event (self_of r))
    then (Ret true, self_of r, process_of r)
    else wait_loop rest (self_of r) (process_of r).
Proof.
  pose proof (deliver_all_returns batch self p) as Hret.
  cbn [wait_loop]. unfold bind at 1.
  destruct (deliver_all batch self p) as [[[[]|e] self1] p1]; [|discriminate].
  unfold bind, get_self, event_is_set, get_process, ret, is_set, self_of, process_of.
  cbn. destruct (default false (events p1 !! stop_event self1)); reflexivity.
Qed.

Lemma wait_loop_spec arrivals self p :
  signals_ok self p ->
  is_set p (stop_event self) = false ->
  let r := wait_loop arrivals self p in
  result_of r = Ret (stop_requested arrivals) /\
  is_set (process_of r) (stop_event self) = stop_requested arrivals /\
  signals_ok (self_of r) (process_of r) /\
  evolves self p (self_of r) (process_of r).
Proof.
  revert self p. induction arrivals as [|batch rest IH]; intros self p Hok Hidle r; subst r.
  - cbn. split; [reflexivity|]. split; [assumption|]. split; [assumption|].
    apply evolves_refl.
  - rewrite wait_loop_cons. cbv zeta.
    destruct (deliver_all_signals_ok batch self p Hok) as [Hok1 Hflag].
    pose proof (deliver_all_evolves batch self p) as Hev.
    assert (Hs : stop_event (self_of (deliver_all batch self p)) = stop_event self)
      by apply Hev.
    rewrite Hs, Hflag, Hidle. cbn [orb stop_requested existsb].
    destruct (existsb is_stop batch) eqn:Hstop; cbn [orb].
    + unfold result_of, self_of, process_of. cbn [fst snd].
      split; [reflexivity|]. split; [|split; assumption].
      fold (process_of (deliver_all batch self p)). rewrite Hflag, Hidle. reflexivity.
    + rewrite Hidle in Hflag. cbn in Hflag. rewrite <- Hs in Hflag.
      destruct (IH _ _ Hok1 Hflag) as (Hres & Hset & Hok2 & Hev2).
      rewrite Hs in Hset.
      split; [assumption|]. split; [assumption|]. split; [assumption|].
      eapply evolves_trans; eassumption.
Qed.

(** ** Construction *)

Lemma init_result cls connection address classes p :
  init cls connection address classes p =
    ({| mclass := cls; redis := connection; ip := address; active_components := [];
        component_classes := registry_of classes; component_counter := 0;
        stop_event := length (events p); ready_event := S (length (events p)) |},
     set_events (events p ++ [false; true])
       (set_stdout
          (stdout p ++
             ("Starting component manager on ip " +:+ dquote +:+ address +:+ dquote
                +:+ " with components:")
             :: ((fun c => " - " +:+ get_component_name c)
                   <$> (snd <$> map_to_list (registry_of classes))))
          (set_log (log p ++ [{| log_name := class_name cls +:+ "-" +:+ address;
                                 log_severity := INFO;
                                 log_text := "Manager on device " +:+ address
                                               +:+ " starting" |}]) p))).
Proof.
  unfold init. unfold bind at 1 2 3. unfold logger_info, logger_emit, print at 1.
  unfold bind, get_self, modify_process. cbn.
  rewrite for_each_print. cbn. unfold event_set, modify_process, set_events, set_stdout,
    set_log, logger_name. cbn.
  replace (S (length (events p))) with (length (events p) + 1) by lia.
  rewrite insert_app_r. cbn. rewrite <- app_assoc. reflexivity.
Qed.

Lemma init_signals_ok cls connection address classes p :
  signals_ok (init cls connection address classes p).1
    (init cls connection address classes p).2 /\
  is_set (init cls connection address classes p).2
    (stop_event (init cls connection address classes p).1) = false.
Proof.
  rewrite init_result. unfold signals_ok, is_set. cbn. rewrite length_app. cbn.
  split; [split; [lia|split; [intros c Hc; inversion Hc|constructor]]|].
  rewrite (list_lookup_middle (events p) [true] false (length (events p)) eq_refl).
  reflexivity.
Qed.

(** ** What [serve] does, whatever arrives *)

Lemma serve_after_loop arrivals self p :
  result_of (wait_loop arrivals self p) = Ret true ->
  serve arrivals self p =
    (shutdown ;; print "Stopped component manager." ;; ret true)
      (self_of (wait_loop arrivals self p)) (process_of (wait_loop arrivals self p)).
Proof.
  unfold serve, result_of, self_of, process_of. unfold bind at 1.
  destruct (wait_loop arrivals self p) as [[res self1] p1]. cbn. intros ->. reflexivity.
Qed.

Lemma serve_still_waiting arrivals self p :
  result_of (wait_loop arrivals self p) = Ret false ->
  serve arrivals self p =
    (Ret false, self_of (wait_loop arrivals self p), process_of (wait_loop arrivals self p)).
Proof.
  unfold serve, result_of, self_of, process_of. unfold bind at 1.
  destruct (wait_loop arrivals self p) as [[res self1] p1]. cbn. intros ->. reflexivity.
Qed.

Lemma serve_tail_closed self p :
  redis_close (redis self) = Ret tt ->
  (shutdown ;; print "Stopped component manager." ;; ret true) self p =
    (Ret true,
     set_redis {| redis_close := Ret tt; redis_closed := true |} self,
     set_stdout (stdout p ++ [trying; "Graceful exit was successful";
                              "Stopped component manager."])
       (set_events (stop_events (active_components self) (events p)) p)).
Proof.
  intros Hclose. unfold bind at 1. rewrite (shutdown_closed self p Hclose).
  unfold bind, print, modify_process, ret, set_stdout. cbn.
  rewrite <- app_assoc. reflexivity.
Qed.

Lemma serve_stopped arrivals self p :
  signals_ok self p ->
  is_set p (stop_event self) = false ->
  redis_close (redis self) = Ret tt ->
  stop_requested arrivals = true ->
  let r := serve arrivals self p in
  result_of r = Ret true /\
  all_stopped (self_of r) (process_of r) /\
  redis_closed (redis (self_of r)) = true /\
  active_components self `prefix_of` active_components (self_of r) /\
  last (stdout (process_of r)) = Some "Stopped component manager.".
Proof.
  intros Hok Hidle Hclose Hstop r. subst r.
  destruct (wait_loop_spec arrivals self p Hok Hidle) as (Hres & _ & Hok1 & Hev).
  rewrite Hstop in Hres. rewrite (serve_after_loop arrivals self p Hres).
  set (self1 := self_of (wait_loop arrivals self p)) in *.
  set (p1 := process_of (wait_loop arrivals self p)) in *.
  destruct Hev as ((_ & Hredis & _) & Hact & _).
  assert (Hclose1 : redis_close (redis self1) = Ret tt) by (rewrite Hredis; assumption).
  rewrite (serve_tail_closed self1 p1 Hclose1).
  unfold result_of, self_of, process_of. cbn.
  split; [reflexivity|]. split; [|split; [reflexivity|split; [assumption|]]].
  - intros c Hc. unfold is_set. cbn in *.
    destruct Hok1 as (_ & Hcomps & _). destruct (Hcomps c Hc) as [Hunset _].
    rewrite (stop_events_sets _ _ c Hc); [reflexivity|].
    eapply lookup_lt_Some; eassumption.
  - rewrite last_app. reflexivity.
Qed.

(** ** Statements about requests *)

(** X1: a start request for a name that is not registered is answered, by
    either class of manager, with a new [SICIgnoreRequestMessage]; one line
    is printed, and the manager, the events, the singleton cache and the log
    are as before. *)
Theorem X1_unknown_name_is_ignored
    (self : manager) (p : process) (request : SICStartComponentRequest) :
  component_classes self !! component_name request = None ->
  let r := _handle_request (StartComponent request) self p in
  self_of r = self /\
  events (process_of r) = events p /\
  started_components (process_of r) = started_components p /\
  log (process_of r) = log p /\
  stdout (process_of r) =
    stdout p ++ [class_name (mclass self) +:+ " ignored request "
                   +:+ component_name request] /\
  heap (process_of r) = heap p ++ [Obj SICIgnoreRequestMessage ∅] /\
  result_of r = Ret (length (heap p)).
Proof.
  intros Hreg r. subst r. rewrite (handle_unknown self p request Hreg).
  repeat split.
Qed.

Lemma X1_witness :
  let self := (Demo.sensor [Demo.ok_class "echo"]).1 in
  let p := (Demo.sensor [Demo.ok_class "echo"]).2 in
  let r := _handle_request (StartComponent (Demo.req "motor")) self p in
  self_of r = self /\
  events (process_of r) = events p /\
  started_components (process_of r) = started_components p /\
  log (process_of r) = log p /\
  stdout (process_of r) =
    stdout p ++ [class_name (mclass self) +:+ " ignored request "
                   +:+ component_name (Demo.req "motor")] /\
  heap (process_of r) = heap p ++ [Obj SICIgnoreRequestMessage ∅] /\
  result_of r = Ret (length (heap p)).
Proof.
  apply (X1_unknown_name_is_ignored
           (Demo.sensor [Demo.ok_class "echo"]).1 (Demo.sensor [Demo.ok_class "echo"]).2
           (Demo.req "motor")).
  vm_compute. reflexivity.
Defined.

(** X2: [start_component] called with a name that is not registered raises
    [KeyError] at the registry lookup, in both classes of manager, before
    anything is logged, created or changed. *)
Theorem X2_start_component_of_unregistered_name_raises_KeyError
    (self : manager) (p : process) (request : SICStartComponentRequest) :
  component_classes self !! component_name request = None ->
  SICComponentManager_start_component request self p
    = (Raise (KeyError (component_name request)), self, p) /\
  SICSensorManager_start_component request self p
    = (Raise (KeyError (component_name request)), self, p) /\
  start_component request self p
    = (Raise (KeyError (component_name request)), self, p).
Proof.
  intros Hreg.
  assert (Hbase : SICComponentManager_start_component request self p
                  = (Raise (KeyError (component_name request)), self, p))
    by (run; rewrite Hreg; reflexivity).
  assert (Hsensor : SICSensorManager_start_component request self p
                    = (Raise (KeyError (component_name request)), self, p))
    by (run_outer; rewrite Hreg; reflexivity).
  split; [assumption|]. split; [assumption|].
  unfold start_component, bind, get_self. cbn. destruct (mclass self); assumption.
Qed.

Lemma X2_witness :
  let self := (Demo.plain [Demo.ok_class "echo"]).1 in
  let p := (Demo.plain [Demo.ok_class "echo"]).2 in
  SICComponentManager_start_component (Demo.req "motor") self p
    = (Raise (KeyError "motor"), self, p) /\
  SICSensorManager_start_component (Demo.req "motor") self p
    = (Raise (KeyError "motor"), self, p) /\
  start_component (Demo.req "motor") self p
    = (Raise (KeyError "motor"), self, p).
Proof.
  apply (X2_start_component_of_unregistered_name_raises_KeyError
           (Demo.plain [Demo.ok_class "echo"]).1 (Demo.plain [Demo.ok_class "echo"]).2
           (Demo.req "motor")).
  vm_compute. reflexivity.
Defined.

(** X3: handling a request, of any kind and by either class of manager,
    only adds.  The registry, the address, the bus connection and the
    manager's own events stay the same; [active_components], the message
    objects, the printed and the logged lines grow at their end, so no
    component is removed and no object that existed is changed; no entry of
    the singleton cache is removed or replaced; and of the events that
    existed, only the manager's stop event can change, from unset to set.
    The same holds for any batch of requests handled one after the other. *)
Theorem X3_requests_only_add (self : manager) (p : process) :
  (forall request,
     evolves self p (self_of (_handle_request request self p))
       (process_of (_handle_request request self p))) /\
  (forall batch,
     evolves self p (self_of (deliver_all batch self p))
       (process_of (deliver_all batch self p))).
Proof.
  split.
  - intros request. apply handle_request_evolves.
  - intros batch. apply deliver_all_evolves.
Qed.

(** X4: one request adds at most one component, whose stop and ready events
    are the two events created last, the stop event unset; it creates at
    most two message objects, and the address it returns is that of one of
    them, never of an object that existed before. *)
Theorem X4_one_request_launches_at_most_one_component
    (self : manager) (p : process) (request : SICRequest) :
  let r := _handle_request request self p in
  launched_at_most_one self p (self_of r) (process_of r) /\
  length (heap (process_of r)) <= length (heap p) + 2 /\
  (forall l, result_of r = Ret l -> length (heap p) <= l < length (heap (process_of r))).
Proof.
  intros r. subst r. destruct request as [|request].
  - rewrite handle_stop. unfold self_of, process_of, result_of. cbn.
    rewrite length_app. cbn. split; [left; reflexivity|]. split; [lia|].
    intros l [= <-]. lia.
  - destruct (handle_start_step self p request) as (_ & _ & Hlaunch & Hheap & Hret).
    auto.
Qed.

(** X5: a start request, whatever its outcome, changes no event that
    existed: the events before it are a prefix of the events after it.  So
    it never sets or clears the manager's stop event nor the stop or ready
    event of a running component. *)
Theorem X5_start_requests_leave_existing_events
    (self : manager) (p : process) (request : SICStartComponentRequest) :
  let r := _handle_request (StartComponent request) self p in
  events p `prefix_of` events (process_of r) /\
  (forall ev, ev < length (events p) -> is_set (process_of r) ev = is_set p ev).
Proof.
  intros r. subst r.
  destruct (handle_start_step self p request) as (_ & [ext Hext] & _).
  split; [exists ext; assumption|].
  intros ev Hev. unfold is_set. rewrite Hext, lookup_app_l by assumption. reflexivity.
Qed.

(** ** Statements about construction *)

Lemma registry_of_snoc classes cls :
  registry_of (classes ++ [cls]) = <[get_component_name cls := cls]> (registry_of classes).
Proof. unfold registry_of. rewrite foldl_snoc. reflexivity. Qed.

(** X6: the registry built by [__init__] maps a name to the last class of
    that name in the list it was given.  So every registered class is found
    under its own name, the name of every listed class is registered, and a
    name that no listed class has is not. *)
Theorem X6_registry_holds_the_last_class_of_each_name
    (classes : list component_class) (name : string) :
  registry_of classes !! name
    = last (filter (fun cls => get_component_name cls = name) classes) /\
  (forall cls, registry_of classes !! name = Some cls ->
     get_component_name cls = name /\ cls ∈ classes) /\
  (registry_of classes !! name = None <->
     forall cls, cls ∈ classes -> get_component_name cls <> name).
Proof.
  assert (Hlast : registry_of classes !! name
                  = last (filter (fun cls => get_component_name cls = name) classes)).
  { induction classes as [|cls classes IH] using rev_ind; [reflexivity|].
    rewrite registry_of_snoc, filter_app, lookup_insert.
    destruct (decide (get_component_name cls = name)) as [Heq|Hne].
    - rewrite filter_cons_True by assumption. rewrite filter_nil, last_snoc.
      reflexivity.
    - rewrite filter_cons_False by assumption. rewrite filter_nil, app_nil_r.
      exact IH. }
  split; [assumption|]. rewrite Hlast. split.
  - intros cls Hcls. apply last_Some_elem_of in Hcls.
    apply list_elem_of_filter in Hcls. assumption.
  - rewrite last_None. split.
    + intros Hnil cls Hin Heq.
      assert (Hf : cls ∈ filter (fun cls => get_component_name cls = name) classes)
        by (apply list_elem_of_filter; auto).
      rewrite Hnil in Hf. inversion Hf.
    + intros Hnone.
      destruct (filter (fun cls => get_component_name cls = name) classes)
        as [|cls rest] eqn:Hf; [reflexivity|].
      assert (Hin : cls ∈ filter (fun cls => get_component_name cls = name) classes)
        by (rewrite Hf; left).
      apply list_elem_of_filter in Hin as [Heq Hin]. destruct (Hnone cls Hin Heq).
Qed.

(** X7: [__init__] creates the stop and the ready event of the manager as
    two new events, sets the ready event and leaves the stop event unset;
    the manager starts without active components and with the registry of
    the classes it was given.  Nothing that existed in the process changes:
    the events before are a prefix of the events after, the message objects
    and the singleton cache are the same, so a second manager can be built
    without disturbing the first.  One line is logged under the name
    [<class>-<address>]. *)
Theorem X7_init_creates_fresh_events_and_disturbs_nothing
    (cls : manager_class) (connection : SICRedis) (address : string)
    (classes : list component_class) (p : process) :
  let self := (init cls connection address classes p).1 in
  let p' := (init cls connection address classes p).2 in
  mclass self = cls /\ redis self = connection /\ ip self = address /\
  active_components self = [] /\
  component_classes self = registry_of classes /\
  stop_event self = length (events p) /\
  ready_event self = S (length (events p)) /\
  events p' = events p ++ [false; true] /\
  is_set p' (stop_event self) = false /\
  is_set p' (ready_event self) = true /\
  heap p' = heap p /\
  started_components p' = started_components p /\
  log p' = log p ++ [log_entry self INFO ("Manager on device " +:+ address +:+ " starting")] /\
  length (stdout p') = length (stdout p) + 1 + size (registry_of classes).
Proof.
  intros self p'. subst self p'. rewrite init_result. unfold is_set. cbn.
  repeat (split; [reflexivity|]).
  split; [rewrite (list_lookup_middle (events p) [true] false _ eq_refl); reflexivity|].
  split; [rewrite (lookup_snoc2 (events p) false true); reflexivity|].
  repeat (split; [reflexivity|]).
  rewrite length_app. cbn. rewrite !length_fmap, length_map_to_list. lia.
Qed.

(** ** Statements about the events and the serve loop *)

(** X8: the events of a manager and its components stay in order.  After
    [__init__], in whatever process, and after any batch of requests, the
    manager's stop event is allocated, and the stop events of the active
    components are allocated, unset, pairwise different and different from
    the manager's stop event; every request keeps this. *)
Theorem X8_signals_stay_in_order :
  (forall cls connection address classes p batch,
     let self := (init cls connection address classes p).1 in
     let q := (init cls connection address classes p).2 in
     signals_ok (self_of (deliver_all batch self q)) (process_of (deliver_all batch self q))) /\
  (forall self p request,
     signals_ok self p ->
     signals_ok (self_of (_handle_request request self p))
       (process_of (_handle_request request self p))).
Proof.
  split.
  - intros cls connection address classes p batch self q. subst self q.
    apply deliver_all_signals_ok. apply init_signals_ok.
  - intros self p request. apply handle_request_signals_ok.
Qed.

(** X9: when a stop request is among the arrivals and closing the bus
    connection succeeds, [serve] returns, whatever else arrived before the
    loop ended: the components started meanwhile are in the active list with
    the earlier ones, the stop event of every one of them is set, the
    connection is closed and the last line printed is
    "Stopped component manager.". *)
Theorem X9_serve_stops_every_component_when_close_succeeds
    (arrivals : list (list SICRequest)) (self : manager) (p : process) :
  signals_ok self p ->
  is_set p (stop_event self) = false ->
  redis_close (redis self) = Ret tt ->
  stop_requested arrivals = true ->
  let r := serve arrivals self p in
  result_of r = Ret true /\
  all_stopped (self_of r) (process_of r) /\
  redis_closed (redis (self_of r)) = true /\
  active_components self `prefix_of` active_components (self_of r) /\
  last (stdout (process_of r)) = Some "Stopped component manager.".
Proof. apply serve_stopped. Qed.

Lemma X9_witness :
  let self := (Demo.running Demo.good_redis).1 in
  let p := (Demo.running Demo.good_redis).2 in
  let arrivals :=
    [[StartComponent (Demo.req "echo")]; [];
     [StartComponent (Demo.req "motor"); SICStopRequest; StartComponent (Demo.req "echo")];
     [StartComponent (Demo.req "echo")]] in
  let r := serve arrivals self p in
  result_of r = Ret true /\
  all_stopped (self_of r) (process_of r) /\
  redis_closed (redis (self_of r)) = true /\
  active_components self `prefix_of` active_components (self_of r) /\
  last (stdout (process_of r)) = Some "Stopped component manager.".
Proof.
  apply (X9_serve_stops_every_component_when_close_succeeds
           [[StartComponent (Demo.req "echo")]; [];
            [StartComponent (Demo.req "motor"); SICStopRequest;
             StartComponent (Demo.req "echo")];
            [StartComponent (Demo.req "echo")]]
           (Demo.running Demo.good_redis).1 (Demo.running Demo.good_redis).2).
  - apply (handle_request_signals_ok
             (init SICComponentManager Demo.good_redis Demo.address
                [Demo.ok_class "echo"] empty_process).1
             (init SICComponentManager Demo.good_redis Demo.address
                [Demo.ok_class "echo"] empty_process).2
             (StartComponent (Demo.req "echo"))).
    apply init_signals_ok.
  - reflexivity.
  - reflexivity.
  - reflexivity.
Defined.

(** X10: as long as no stop request is among the arrivals, [serve] is still
    in its loop after the last of them, however many start requests were
    handled: [shutdown] has not run, the bus connection is as it was, the
    manager's stop event is unset and so is the stop event of every active
    component. *)
Theorem X10_serve_keeps_waiting_without_stop_request
    (arrivals : list (list SICRequest)) (self : manager) (p : process) :
  signals_ok self p ->
  is_set p (stop_event self) = false ->
  stop_requested arrivals = false ->
  let r := serve arrivals self p in
  result_of r = Ret false /\
  redis (self_of r) = redis self /\
  is_set (process_of r) (stop_event (self_of r)) = false /\
  (forall c, c ∈ active_components (self_of r) ->
     is_set (process_of r) (_stop_event c) = false).
Proof.
  intros Hok Hidle Hstop r. subst r.
  destruct (wait_loop_spec arrivals self p Hok Hidle) as (Hres & Hset & Hok1 & Hev).
  rewrite Hstop in Hres, Hset. rewrite (serve_still_waiting arrivals self p Hres).
  unfold result_of, self_of, process_of in *. cbn [fst snd] in *.
  destruct Hev as ((_ & Hredis & _ & _ & _ & Hs & _) & _).
  split; [reflexivity|]. split; [assumption|]. split; [rewrite Hs; assumption|].
  intros c Hc. destruct Hok1 as (_ & Hcomps & _). destruct (Hcomps c Hc) as [Hunset _].
  unfold is_set. rewrite Hunset. reflexivity.
Qed.

Lemma X10_witness :
  let self := (Demo.running Demo.good_redis).1 in
  let p := (Demo.running Demo.good_redis).2 in
  let arrivals :=
    [[StartComponent (Demo.req "echo")]; [];
     [StartComponent (Demo.req "motor"); StartComponent (Demo.req "echo")]] in
  let r := serve arrivals self p in
  result_of r = Ret false /\
  redis (self_of r) = redis self /\
  is_set (process_of r) (stop_event (self_of r)) = false /\
  (forall c, c ∈ active_components (self_of r) ->
     is_set (process_of r) (_stop_event c) = false).
Proof.
  apply (X10_serve_keeps_waiting_without_stop_request
           [[StartComponent (Demo.req "echo")]; [];
            [StartComponent (Demo.req "motor"); StartComponent (Demo.req "echo")]]
           (Demo.running Demo.good_redis).1 (Demo.running Demo.good_redis).2).
  - apply (handle_request_signals_ok
             (init SICComponentManager Demo.good_redis Demo.address
                [Demo.ok_class "echo"] empty_process).1
             (init SICComponentManager Demo.good_redis Demo.address
                [Demo.ok_class "echo"] empty_process).2
             (StartComponent (Demo.req "echo"))).
    apply init_signals_ok.
  - reflexivity.
  - reflexivity.
Defined.

(** X11: from construction to shutdown.  A manager of either class, built
    by [__init__] in any process with a bus connection whose [close()]
    succeeds, and then serving: once a stop request is among the arrivals,
    [serve] returns with the bus connection closed and the stop event of
    every component it started set. *)
Theorem X11_init_then_serve_stops_every_component
    (cls : manager_class) (connection : SICRedis) (address : string)
    (classes : list component_class) (p : process)
    (arrivals : list (list SICRequest)) :
  redis_close connection = Ret tt ->
  stop_requested arrivals = true ->
  let self := (init cls connection address classes p).1 in
  let q := (init cls connection address classes p).2 in
  let r := serve arrivals self q in
  result_of r = Ret true /\
  all_stopped (self_of r) (process_of r) /\
  redis_closed (redis (self_of r)) = true.
Proof.
  intros Hclose Hstop self q r. subst r.
  destruct (init_signals_ok cls connection address classes p) as [Hok Hidle].
  destruct (serve_stopped arrivals self q Hok Hidle) as (H1 & H2 & H3 & _).
  - subst self. rewrite init_result. exact Hclose.
  - assumption.
  - auto.
Qed.

Lemma X11_witness :
  let arrivals := [[StartComponent (Demo.req "echo")];
                   [StartComponent (Demo.req "echo"); SICStopRequest]] in
  let self := (init SICSensorManager Demo.good_redis Demo.address
                 [Demo.ok_class "echo"] empty_process).1 in
  let q := (init SICSensorManager Demo.good_redis Demo.address
              [Demo.ok_class "echo"] empty_process).2 in
  let r := serve arrivals self q in
  result_of r = Ret true /\
  all_stopped (self_of r) (process_of r) /\
  redis_closed (redis (self_of r)) = true.
Proof.
  apply (X11_init_then_serve_stops_every_component SICSensorManager Demo.good_redis
           Demo.address [Demo.ok_class "echo"] empty_process
           [[StartComponent (Demo.req "echo")];
            [StartComponent (Demo.req "echo"); SICStopRequest]]);
    reflexivity.
Defined.

(** ** Statements about repeated start requests *)

Lemma deliver_all_step request rest self p res self1 p1 :
  _handle_request request self p = (res, self1, p1) ->
  deliver_all (request :: rest) self p = deliver_all rest self1 p1.
Proof. intros Heq. rewrite deliver_all_cons, Heq. reflexivity. Qed.

Lemma sensor_cached_batch self p name cls lc o (requests : list SICStartComponentRequest) :
  mclass self = SICSensorManager ->
  component_classes self !! name = Some cls ->
  started_components p !! get_component_name cls = Some lc ->
  heap p !! lc = Some o ->
  Forall (fun request => component_name request = name) requests ->
  let r := deliver_all (StartComponent <$> requests) self p in
  self_of r = self /\
  events (process_of r) = events p /\
  started_components (process_of r) = started_components p /\
  heap (process_of r) = heap p ++ replicate (length requests) o.
Proof.
  intros Hsensor Hreg. revert p.
  induction requests as [|request requests IH]; intros p Hcache Hobj Hnames r; subst r.
  - cbn. rewrite app_nil_r. repeat split.
  - apply Forall_cons in Hnames as [Hname Hnames].
    assert (Hreg1 : component_classes self !! component_name request = Some cls)
      by (rewrite Hname; exact Hreg).
    cbn [fmap list_fmap].
    rewrite (deliver_all_step _ _ self p _ _ _
               (eq_trans (handle_start_sensor self p request cls Hsensor Hreg1)
                  (sensor_start_cached self (handling self request p) request cls lc o
                     Hreg1 Hcache Hobj))).
    match goal with |- context [deliver_all _ self ?q] => set (p1 := q) end.
    destruct (IH p1) as (H1 & H2 & H3 & H4);
      [exact Hcache|apply lookup_app_l_Some; exact Hobj|exact Hnames|].
    cbv zeta in *. rewrite H1, H2, H3, H4. subst p1. cbn.
    rewrite <- app_assoc. repeat split.
Qed.

(** X12: the singleton manager launches a class at most once.  Once an
    entry for a class name is cached, any number of start requests for that
    name launch nothing: the manager and its active components, the events
    and the cache are as before, and each request is answered with one more
    copy of the cached object. *)
Theorem X12_singleton_manager_launches_a_class_at_most_once
    (self : manager) (p : process) (name : string) (cls : component_class)
    (lc : nat) (o : object) (requests : list SICStartComponentRequest) :
  mclass self = SICSensorManager ->
  component_classes self !! name = Some cls ->
  started_components p !! get_component_name cls = Some lc ->
  heap p !! lc = Some o ->
  Forall (fun request => component_name request = name) requests ->
  let r := deliver_all (StartComponent <$> requests) self p in
  self_of r = self /\
  events (process_of r) = events p /\
  started_components (process_of r) = started_components p /\
  heap (process_of r) = heap p ++ replicate (length requests) o.
Proof. apply sensor_cached_batch. Qed.

Lemma X12_witness :
  let self := (Demo.sensor [Demo.ok_class "echo"]).1 in
  let p0 := (Demo.sensor [Demo.ok_class "echo"]).2 in
  let first := _handle_request (StartComponent (Demo.req "echo")) self p0 in
  let p := process_of first in
  let o := mark_singleton (started_information "echo:10.0.0.5") in
  let requests := [Demo.req "echo"; Demo.req "echo"; Demo.req "echo"] in
  let r := deliver_all (StartComponent <$> requests) self p in
  self_of r = self /\
  events (process_of r) = events p /\
  started_components (process_of r) = started_components p /\
  heap (process_of r) = heap p ++ replicate (length requests) o.
Proof.
  apply (X12_singleton_manager_launches_a_class_at_most_once
           (Demo.sensor [Demo.ok_class "echo"]).1
           (process_of (_handle_request (StartComponent (Demo.req "echo"))
                          (Demo.sensor [Demo.ok_class "echo"]).1
                          (Demo.sensor [Demo.ok_class "echo"]).2))
           "echo" (Demo.ok_class "echo") 0
           (mark_singleton (started_information "echo:10.0.0.5"))
           [Demo.req "echo"; Demo.req "echo"; Demo.req "echo"]).
  - reflexivity.
  - vm_compute; reflexivity.
  - vm_compute; reflexivity.
  - vm_compute; reflexivity.
  - repeat constructor.
Defined.




(** ** Statements about replies *)

(** X14: a [SICStartedComponentInformation] returned by the plain manager
    reports [component_is_singleton] as [False]: the constructor sets only
    [output_channel], so the attribute is read from the class. *)
Theorem X14_plain_reply_is_not_a_singleton
    (self : manager) (p : process) (request : SICStartComponentRequest) (l : nat) :
  mclass self = SICComponentManager ->
  let r := _handle_request (StartComponent request) self p in
  result_of r = Ret l ->
  class_of (process_of r) l = Some SICStartedComponentInformation ->
  getattr (process_of r) l "component_is_singleton" = Some (VBool false) /\
  exists ch, getattr (process_of r) l "output_channel" = Some (VStr ch).
Proof.
  intros Hplain r Hret Hcls. subst r.
  destruct (component_classes self !! component_name request) as [cls|] eqn:Hreg.
  - rewrite (handle_start_plain self p request cls Hplain Hreg) in *.
    destruct (base_start_shape self (handling self request p) request cls Hreg)
      as [(e & _ & Heq)|[(e & Heq)|(ch & b & lg & _ & _ & _ & _ & Heq)]];
      rewrite Heq in *; unfold result_of, process_of, class_of, getattr in *;
      cbn in *.
    + discriminate.
    + injection Hret as <-. rewrite lookup_snoc in Hcls. discriminate.
    + injection Hret as <-. rewrite lookup_snoc. cbn.
      split; [reflexivity|]. exists ch. apply getattr_output_channel.
  - rewrite (handle_unknown self p request Hreg) in *.
    unfold result_of, process_of, class_of in *. cbn in *.
    injection Hret as <-. rewrite lookup_snoc in Hcls. discriminate.
Qed.

Lemma X14_witness :
  let self := (Demo.plain [Demo.ok_class "echo"]).1 in
  let p := (Demo.plain [Demo.ok_class "echo"]).2 in
  let r := _handle_request (StartComponent (Demo.req "echo")) self p in
  getattr (process_of r) 0 "component_is_singleton" = Some (VBool false) /\
  exists ch, getattr (process_of r) 0 "output_channel" = Some (VStr ch).
Proof.
  apply (X14_plain_reply_is_not_a_singleton
           (Demo.plain [Demo.ok_class "echo"]).1 (Demo.plain [Demo.ok_class "echo"]).2
           (Demo.req "echo") 0); vm_compute; reflexivity.
Defined.




(** X16: on the singleton manager, a failure that escapes
    [start_component] is not cached.  When [get_output_channel] raises for a
    class that is not cached, the cache, the events and the manager are as
    before, so the next request for the class starts over and meets the
    same call again. *)
Theorem X16_escaped_failure_is_not_cached
    (self : manager) (p : process) (request : SICStartComponentRequest)
    (cls : component_class) (e : exn) :
  mclass self = SICSensorManager ->
  component_classes self !! component_name request = Some cls ->
  started_components p !! get_component_name cls = None ->
  get_output_channel cls (ip self) = Raise e ->
  let r := _handle_request (StartComponent request) self p in
  let r2 := _handle_request (StartComponent request) (self_of r) (process_of r) in
  result_of r = Raise e /\
  self_of r = self /\
  started_components (process_of r) = started_components p /\
  events (process_of r) = events p /\
  heap (process_of r) = heap p /\
  result_of r2 = Raise e /\
  last (log (process_of r2)) =
    Some (log_entry self INFO ("Starting new component " +:+ component_name request)).
Proof.
  intros Hsensor Hreg Hmiss Hch r r2. subst r2 r.
  assert (Hstep : forall q, started_components q = started_components p ->
            _handle_request (StartComponent request) self q =
              (Raise e, self, starting self request (handling self request q))).
  { intros q Hq. rewrite (handle_start_sensor self q request cls Hsensor Hreg).
    destruct (sensor_start_fresh self (handling self request q) request cls Hreg)
      as [(e' & He' & ->)|(o & Hret & _)].
    - cbn. rewrite Hq. exact Hmiss.
    - rewrite Hch in He'. injection He' as <-. reflexivity.
    - rewrite (base_start_channel_raises self _ request cls Hreg e Hch) in Hret.
      discriminate. }
  rewrite (Hstep p eq_refl). unfold self_of, process_of, result_of. cbn [fst snd].
  rewrite (Hstep (starting self request (handling self request p)) eq_refl). cbn.
  repeat (split; [reflexivity|]). apply last_snoc.
Qed.

Lemma X16_witness :
  let self := (Demo.sensor [Demo.no_channel_class "echo"]).1 in
  let p := (Demo.sensor [Demo.no_channel_class "echo"]).2 in
  let r := _handle_request (StartComponent (Demo.req "echo")) self p in
  let r2 := _handle_request (StartComponent (Demo.req "echo")) (self_of r) (process_of r) in
  result_of r = Raise Demo.bad_address /\
  self_of r = self /\
  started_components (process_of r) = started_components p /\
  events (process_of r) = events p /\
  heap (process_of r) = heap p /\
  result_of r2 = Raise Demo.bad_address /\
  last (log (process_of r2)) =
    Some (log_entry self INFO ("Starting new component " +:+ component_name (Demo.req "echo"))).
Proof.
  apply (X16_escaped_failure_is_not_cached
           (Demo.sensor [Demo.no_channel_class "echo"]).1
           (Demo.sensor [Demo.no_channel_class "echo"]).2
           (Demo.req "echo") (Demo.no_channel_class "echo") Demo.bad_address);
    vm_compute; reflexivity.
Defined.

(** X17: when [get_output_channel] returns for the class a start request
    names and the cache is well formed, every request, of any kind and on
    either class of manager, is answered: the handler returns the address of
    a message object that this request created. *)
Theorem X17_every_request_is_answered_when_the_channel_is_computed
    (self : manager) (p : process) (request : SICRequest) :
  cache_ok p ->
  (forall start cls,
     request = StartComponent start ->
     component_classes self !! component_name start = Some cls ->
     exists ch, get_output_channel cls (ip self) = Ret ch) ->
  let r := _handle_request request self p in
  exists l, result_of r = Ret l /\
    length (heap p) <= l /\
    is_Some (heap (process_of r) !! l).
Proof.
  intros Hok Hch r. subst r.
  destruct (handle_request_replies self p request Hok Hch) as (l & Hret & Hobj).
  exists l. split; [assumption|]. split; [|assumption].
  destruct request as [|request].
  - rewrite handle_stop in Hret. injection Hret as <-. lia.
  - destruct (handle_start_step self p request) as (_ & _ & _ & _ & Hfresh).
    apply Hfresh in Hret. lia.
Qed.

Lemma X17_witness :
  let self := (Demo.sensor [Demo.broken_class "camera"]).1 in
  let p := (Demo.sensor [Demo.broken_class "camera"]).2 in
  let r := _handle_request (StartComponent (Demo.req "camera")) self p in
  exists l, result_of r = Ret l /\
    length (heap p) <= l /\
    is_Some (heap (process_of r) !! l).
Proof.
  apply (X17_every_request_is_answered_when_the_channel_is_computed
           (Demo.sensor [Demo.broken_class "camera"]).1
           (Demo.sensor [Demo.broken_class "camera"]).2
           (StartComponent (Demo.req "camera"))).
  - apply cache_ok_empty. reflexivity.
  - intros start cls [= <-] Hreg. vm_compute in Hreg. injection Hreg as <-.
    eexists. reflexivity.
Defined.

(** ** Statements about the cache and about shutdown *)

Lemma deliver_all_cache_ok batch self p :
  cache_ok p -> cache_ok (process_of (deliver_all batch self p)).
Proof.
  revert self p. induction batch as [|request rest IH]; intros self p Hok; [exact Hok|].
  rewrite deliver_all_cons. apply IH. apply handle_request_cache_ok. exact Hok.
Qed.

(** X18: the singleton cache stays well formed.  If every cached address
    holds an object that is marked as a singleton (and, when it is a
    [SICStartedComponentInformation], carries an output channel), then this
    is still so after [__init__] of a further manager and after any batch of
    requests handled by either class of manager; it holds in a process in
    which nothing is cached. *)
Theorem X18_cache_stays_well_formed :
  cache_ok empty_process /\
  (forall cls connection address classes p,
     cache_ok p -> cache_ok (init cls connection address classes p).2) /\
  (forall batch self p,
     cache_ok p -> cache_ok (process_of (deliver_all batch self p))).
Proof.
  split; [apply cache_ok_empty; reflexivity|]. split.
  - intros cls connection address classes p. apply cache_ok_init.
  - intros batch self p. apply deliver_all_cache_ok.
Qed.

(** X19: [shutdown], however it ends, removes no component and clears no
    event: [active_components], the registry, the message objects, the
    cache and the log are as before and every event that was set is still
    set.  When [close()] returns, it returns normally with the connection
    marked closed; when [close()] raises, no event has changed and the
    connection is as it was. *)
Theorem X19_shutdown_removes_nothing_and_clears_no_event
    (self : manager) (p : process) :
  let r := shutdown self p in
  active_components (self_of r) = active_components self /\
  component_classes (self_of r) = component_classes self /\
  stop_event (self_of r) = stop_event self /\
  heap (process_of r) = heap p /\
  started_components (process_of r) = started_components p /\
  log (process_of r) = log p /\
  stdout p `prefix_of` stdout (process_of r) /\
  length (events (process_of r)) = length (events p) /\
  (forall ev, is_set p ev = true -> is_set (process_of r) ev = true) /\
  (redis_close (redis self) = Ret tt ->
   result_of r = Ret tt /\ redis_closed (redis (self_of r)) = true) /\
  (forall e, redis_close (redis self) = Raise e ->
   events (process_of r) = events p /\ redis (self_of r) = redis self).
Proof.
  intros r. subst r.
  destruct (redis_close (redis self)) as [[]|e] eqn:Hclose.
  - rewrite (shutdown_closed self p Hclose). unfold self_of, process_of, result_of. cbn.
    repeat (split; [reflexivity|]). split; [prefix_tac|].
    split; [unfold stop_events; generalize (events p);
            induction (active_components self) as [|c l IH]; intros ev;
            [reflexivity|cbn; rewrite IH; apply length_insert]|].
    split.
    + intros ev Hset. unfold is_set in *.
      destruct (events p !! ev) as [[]|] eqn:Hev; try discriminate.
      pose proof (stop_events_keeps (active_components self) _ _ Hev) as Hkeep.
      unfold stop_events in *. cbn in *. rewrite Hkeep. reflexivity.
    + split; [intros _; split; reflexivity|]. intros e [=].
  - destruct (exn_message e) as [msg|] eqn:Hmsg.
    + rewrite (shutdown_reports self p msg e Hclose Hmsg).
      unfold self_of, process_of, result_of. cbn.
      repeat (split; [reflexivity|]). split; [prefix_tac|]. split; [reflexivity|].
      split; [auto|]. split; [intros [=]|]. intros e' _. split; reflexivity.
    + rewrite (shutdown_report_raises self p e Hclose Hmsg).
      unfold self_of, process_of, result_of. cbn.
      repeat (split; [reflexivity|]). split; [prefix_tac|]. split; [reflexivity|].
      split; [auto|]. split; [intros [=]|]. intros e' _. split; reflexivity.
Qed.



